(** * A CRUD API over users, projects and courses

    Shallow embedding of [app/schemas.py], [app/models.py] and
    [app/main.py]: the pydantic request schemas, the SQLAlchemy mapped
    classes with their tables and constraints, the session (unit of work)
    the handlers drive, the handlers themselves and the route table with
    FastAPI's parameter binding. *)

From Stdlib Require Import ZArith NArith List String Ascii Bool Lia.
From Stdlib Require Import Sorting.Sorted Sorting.Permutation.
From stdpp Require Import base option list gmap strings.

Import ListNotations.
Local Open Scope string_scope.
Local Open Scope Z_scope.

(** ** Python values *)

(** A Python [str] is a sequence of Unicode code points; [len] counts code
    points.  Field names, error types and messages stay Rocq strings. *)
Definition str := list N.

Definition u (s : string) : str := map N_of_ascii (list_ascii_of_string s).

Definition len (s : str) : Z := Z.of_nat (length s).

(** The values that travel between a request and a row: a string, an
    integer, [None] (JSON [null]).  A request body is a JSON object, read
    into a dict. *)
Inductive value :=
  | PyNone
  | PyInt (z : Z)
  | PyStr (s : str).

Abbreviation body := (gmap string value).

Definition of_str (o : option str) : value :=
  match o with Some s => PyStr s | None => PyNone end.

Definition of_int (o : option Z) : value :=
  match o with Some z => PyInt z | None => PyNone end.

(** Storing a value in an attribute that holds a string (an integer) or
    [None]; the schemas never produce a value of the other type, which
    leaves [old]. *)
Definition store_str (v : value) (old : option str) : option str :=
  match v with PyStr s => Some s | PyNone => None | PyInt _ => old end.

Definition store_int (v : value) (old : option Z) : option Z :=
  match v with PyInt z => Some z | PyNone => None | PyStr _ => old end.

(** A field of an update schema remembers whether the request set it
    ([model_fields_set]); [model_dump(exclude_unset=True)] keeps the set
    ones only. *)
Inductive field (A : Type) :=
  | Unset
  | Set_ (v : A).
Arguments Unset {A}.
Arguments Set_ {A} v.

Definition dump_if_set {A} (key : string) (to_value : A -> value) (f : field A)
  : list (string * value) :=
  match f with
  | Unset => []
  | Set_ v => [(key, to_value v)]
  end.

(** ** Patterns ([StringConstraints(pattern=...)])

    The fragment of regular expressions the schemas use: literals, the
    class [\d], concatenation, counted repetition and the anchors.
    pydantic hands a pattern to the Rust regex engine: [\d] is the Unicode
    class and [$] holds at the end of the subject only. *)
Inductive regex :=
  | Eps
  | Bol                          (* ^ *)
  | Eol                          (* $ *)
  | Chr (c : N)
  | Digit                        (* \d *)
  | Seq (r1 r2 : regex).

(** [r{n}] *)
Fixpoint Rep (n : nat) (r : regex) : regex :=
  match n with
  | O => Eps
  | S n' => Seq r (Rep n' r)
  end.

Definition ascii_digit (c : N) : bool := ((48 <=? c) && (c <=? 57))%N.

(** U+0660 to U+0669 *)
Definition arabic_indic_digit (c : N) : bool := ((1632 <=? c) && (c <=? 1641))%N.

Section Patterns.

(** [\d] is Unicode aware: it holds the code points of the general
    category Nd.  Those of ASCII are 0 to 9 and no other; the first block
    beyond is that of the Arabic-Indic digits; the rest of the table,
    all of it beyond ASCII, belongs to the regex engine. *)
Variable Nd_beyond_ascii : N -> bool.

Definition is_digit (c : N) : bool :=
  ascii_digit c || arabic_indic_digit c || ((128 <=? c)%N && Nd_beyond_ascii c).

(** [matches r at_start s k]: [r] matches a prefix of [s], [at_start]
    telling whether [s] is the whole subject, and [k] accepts what
    follows. *)
Fixpoint matches (r : regex) (at_start : bool) (s : str)
         (k : bool -> str -> bool) : bool :=
  match r with
  | Eps => k at_start s
  | Bol => at_start && k at_start s
  | Eol => match s with [] => k at_start s | _ :: _ => false end
  | Chr c => match s with
             | x :: t => (x =? c)%N && k false t
             | [] => false
             end
  | Digit => match s with
             | x :: t => is_digit x && k false t
             | [] => false
             end
  | Seq r1 r2 => matches r1 at_start s (fun b t => matches r2 b t k)
  end.

(** Pattern constraints search the subject: a match may start at any
    position and end anywhere, unless the anchors forbid it. *)
Fixpoint search_from (r : regex) (at_start : bool) (s : str) : bool :=
  matches r at_start s (fun _ _ => true)
  || match s with
     | [] => false
     | _ :: t => search_from r false t
     end.

Definition is_match (r : regex) (s : str) : bool := search_from r true s.

End Patterns.

(** [r'^S\d{7}$'] *)
Definition StudentID_pattern : regex :=
  Seq Bol (Seq (Chr 83) (Seq (Rep 7 Digit) Eol)).

(** ** Request schemas ([app/schemas.py]) *)

Record StringConstraints := {
  min_length : option Z;
  max_length : option Z;
  pattern : option regex
}.

Definition NameStr := {| min_length := Some 2; max_length := Some 50; pattern := None |}.
Definition StudentID := {| min_length := None; max_length := None; pattern := Some StudentID_pattern |}.
Definition CodeStr := {| min_length := Some 1; max_length := Some 32; pattern := None |}.
Definition CourseNameStr := {| min_length := Some 1; max_length := Some 255; pattern := None |}.
Definition ProjectNameStr := {| min_length := Some 1; max_length := Some 255; pattern := None |}.
Definition DescStr := {| min_length := Some 0; max_length := Some 2000; pattern := None |}.

Record IntConstraints := {
  gt : option Z;
  ge : option Z;
  le : option Z
}.

Definition AgeInt := {| gt := None; ge := Some 18; le := Some 150 |}.
Definition CreditsInt := {| gt := None; ge := Some 1; le := Some 120 |}.
(** [int = Field(gt=18)] *)
Definition age_gt_18 := {| gt := Some 18; ge := None; le := None |}.
(** a plain [int] *)
Definition any_int := {| gt := None; ge := None; le := None |}.

Module UserCreate.
Record t := mk { student_id : str; name : str; email : str; age : Z }.

Definition model_dump (m : t) : list (string * value) :=
  [("student_id", PyStr (student_id m)); ("name", PyStr (name m));
   ("email", PyStr (email m)); ("age", PyInt (age m))].
End UserCreate.

Module UserUpdate.
Record t := mk {
  student_id : field (option str);
  name : field (option str);
  email : field (option str);
  age : field (option Z)
}.

Definition model_dump_exclude_unset (m : t) : list (string * value) :=
  dump_if_set "student_id" of_str (student_id m)
  ++ dump_if_set "name" of_str (name m)
  ++ dump_if_set "email" of_str (email m)
  ++ dump_if_set "age" of_int (age m).
End UserUpdate.

Module ProjectCreate.
Record t := mk { name : str; description : option str; owner_id : Z }.

Definition model_dump (m : t) : list (string * value) :=
  [("name", PyStr (name m)); ("description", of_str (description m));
   ("owner_id", PyInt (owner_id m))].
End ProjectCreate.

Module ProjectCreateForUser.
Record t := mk { name : str; description : option str }.
End ProjectCreateForUser.

Module ProjectUpdate.
Record t := mk {
  name : field (option str);
  description : field (option str)
}.

Definition model_dump_exclude_unset (m : t) : list (string * value) :=
  dump_if_set "name" of_str (name m)
  ++ dump_if_set "description" of_str (description m).
End ProjectUpdate.

Module CourseCreate.
Record t := mk { code : str; name : str; credits : Z }.

Definition model_dump (m : t) : list (string * value) :=
  [("code", PyStr (code m)); ("name", PyStr (name m));
   ("credits", PyInt (credits m))].
End CourseCreate.

(** The outcome of validating one value: the value, or the type of the
    error ([missing], [string_too_short], [greater_than], ...). *)
Definition checked (A : Type) : Type := A + string.

(** The outcome of validating a model: the instance, or the list of
    (field, error type) pairs of the 422 response. *)
Inductive validated (A : Type) :=
  | Valid (a : A)
  | Invalid (errors : list (string * string)).
Arguments Valid {A} a.
Arguments Invalid {A} errors.

Definition errors_of {A} (loc : string) (r : checked A) : list (string * string) :=
  match r with
  | inl _ => []
  | inr e => [(loc, e)]
  end.

Definition below (bound : option Z) (x : Z) : bool :=
  match bound with Some b => x <? b | None => false end.

Definition above (bound : option Z) (x : Z) : bool :=
  match bound with Some b => b <? x | None => false end.

Definition check_int (c : IntConstraints) (x : Z) : checked Z :=
  if match gt c with Some b => x <=? b | None => false end then inr "greater_than"
  else if below (ge c) x then inr "greater_than_equal"
  else if above (le c) x then inr "less_than_equal"
  else inl x.

Section Schemas.

Variable Nd_beyond_ascii : N -> bool.

(** pydantic's conversion of a string to an [int] (path and query
    parameters, and JSON strings given for an [int] field). *)
Variable str_as_int : str -> option Z.

(** [EmailStr]: the [email_validator] package checks the address and
    returns its normalised form. *)
Variable validate_email : str -> option str.

Definition check_str (c : StringConstraints) (s : str) : checked str :=
  if below (min_length c) (len s) then inr "string_too_short"
  else if above (max_length c) (len s) then inr "string_too_long"
  else match pattern c with
       | Some r => if is_match Nd_beyond_ascii r s then inl s
                   else inr "string_pattern_mismatch"
       | None => inl s
       end.

Definition constrained_str (c : StringConstraints) (v : value) : checked str :=
  match v with
  | PyStr s => check_str c s
  | _ => inr "string_type"
  end.

Definition constrained_int (c : IntConstraints) (v : value) : checked Z :=
  match v with
  | PyInt x => check_int c x
  | PyStr s => match str_as_int s with
              | Some x => check_int c x
              | None => inr "int_parsing"
              end
  | PyNone => inr "int_type"
  end.

Definition EmailStr (v : value) : checked str :=
  match v with
  | PyStr s => match validate_email s with
              | Some s' => inl s'
              | None => inr "value_error"
              end
  | _ => inr "string_type"
  end.

(** A field without default. *)
Definition required {A} (validate : value -> checked A) (v : option value) : checked A :=
  match v with
  | Some x => validate x
  | None => inr "missing"
  end.

(** [Optional[T] = None] in a schema whose dump is taken whole. *)
Definition optional {A} (validate : value -> checked A) (v : option value)
  : checked (option A) :=
  match v with
  | None => inl None
  | Some PyNone => inl None
  | Some x => match validate x with
              | inl a => inl (Some a)
              | inr e => inr e
              end
  end.

(** [Optional[T] = None] in a schema dumped with [exclude_unset]. *)
Definition optional_field {A} (validate : value -> checked A) (v : option value)
  : checked (field (option A)) :=
  match v with
  | None => inl Unset
  | Some PyNone => inl (Set_ None)
  | Some x => match validate x with
              | inl a => inl (Set_ (Some a))
              | inr e => inr e
              end
  end.

Definition validate_UserCreate (b : body) : validated UserCreate.t :=
  let student_id := required (constrained_str StudentID) (b !! "student_id") in
  let name := required (constrained_str NameStr) (b !! "name") in
  let email := required EmailStr (b !! "email") in
  let age := required (constrained_int age_gt_18) (b !! "age") in
  match student_id, name, email, age with
  | inl s, inl n, inl e, inl a =>
      Valid {| UserCreate.student_id := s; UserCreate.name := n;
               UserCreate.email := e; UserCreate.age := a |}
  | _, _, _, _ =>
      Invalid (errors_of "student_id" student_id ++ errors_of "name" name
               ++ errors_of "email" email ++ errors_of "age" age)
  end.

Definition validate_UserUpdate (b : body) : validated UserUpdate.t :=
  let student_id := optional_field (constrained_str StudentID) (b !! "student_id") in
  let name := optional_field (constrained_str NameStr) (b !! "name") in
  let email := optional_field EmailStr (b !! "email") in
  let age := optional_field (constrained_int AgeInt) (b !! "age") in
  match student_id, name, email, age with
  | inl s, inl n, inl e, inl a =>
      Valid {| UserUpdate.student_id := s; UserUpdate.name := n;
               UserUpdate.email := e; UserUpdate.age := a |}
  | _, _, _, _ =>
      Invalid (errors_of "student_id" student_id ++ errors_of "name" name
               ++ errors_of "email" email ++ errors_of "age" age)
  end.

Definition validate_ProjectCreate (b : body) : validated ProjectCreate.t :=
  let name := required (constrained_str ProjectNameStr) (b !! "name") in
  let description := optional (constrained_str DescStr) (b !! "description") in
  let owner_id := required (constrained_int any_int) (b !! "owner_id") in
  match name, description, owner_id with
  | inl n, inl d, inl o =>
      Valid {| ProjectCreate.name := n; ProjectCreate.description := d;
               ProjectCreate.owner_id := o |}
  | _, _, _ =>
      Invalid (errors_of "name" name ++ errors_of "description" description
               ++ errors_of "owner_id" owner_id)
  end.

Definition validate_ProjectCreateForUser (b : body)
  : validated ProjectCreateForUser.t :=
  let name := required (constrained_str ProjectNameStr) (b !! "name") in
  let description := optional (constrained_str DescStr) (b !! "description") in
  match name, description with
  | inl n, inl d =>
      Valid {| ProjectCreateForUser.name := n;
               ProjectCreateForUser.description := d |}
  | _, _ =>
      Invalid (errors_of "name" name ++ errors_of "description" description)
  end.

Definition validate_ProjectUpdate (b : body) : validated ProjectUpdate.t :=
  let name := optional_field (constrained_str ProjectNameStr) (b !! "name") in
  let description := optional_field (constrained_str DescStr) (b !! "description") in
  match name, description with
  | inl n, inl d =>
      Valid {| ProjectUpdate.name := n; ProjectUpdate.description := d |}
  | _, _ =>
      Invalid (errors_of "name" name ++ errors_of "description" description)
  end.

Definition validate_CourseCreate (b : body) : validated CourseCreate.t :=
  let code := required (constrained_str CodeStr) (b !! "code") in
  let name := required (constrained_str CourseNameStr) (b !! "name") in
  let credits := required (constrained_int CreditsInt) (b !! "credits") in
  match code, name, credits with
  | inl c, inl n, inl k =>
      Valid {| CourseCreate.code := c; CourseCreate.name := n;
               CourseCreate.credits := k |}
  | _, _, _ =>
      Invalid (errors_of "code" code ++ errors_of "name" name
               ++ errors_of "credits" credits)
  end.

End Schemas.

(** ** Tables and mapped classes ([app/models.py]) *)

(** A row of a table: the columns declared [nullable=False] (or mapped
    from a non-optional annotation) hold a value. *)
Module Users.
Record row := mk { id : Z; name : str; email : str; age : Z; student_id : str }.
End Users.

Module Projects.
Record row := mk { id : Z; name : str; description : option str; owner_id : Z }.
End Projects.

Module Courses.
Record row := mk { id : Z; code : str; name : str; credits : Z }.
End Courses.

Record Database := {
  users : list Users.row;
  projects : list Projects.row;
  courses : list Courses.row
}.

(** An instance of a mapped class is a Python object: any attribute may
    hold [None], and [id] does until the row is inserted. *)
Module UserDB.
Record t := mk {
  id : option Z;
  name : option str;
  email : option str;
  age : option Z;
  student_id : option str
}.

Definition of_row (r : Users.row) : t :=
  {| id := Some (Users.id r); name := Some (Users.name r);
     email := Some (Users.email r); age := Some (Users.age r);
     student_id := Some (Users.student_id r) |}.

(** [None] when a NOT NULL column would receive [None]. *)
Definition to_row (pk : Z) (o : t) : option Users.row :=
  match name o, email o, age o, student_id o with
  | Some n, Some e, Some a, Some s =>
      Some {| Users.id := pk; Users.name := n; Users.email := e;
              Users.age := a; Users.student_id := s |}
  | _, _, _, _ => None
  end.

Definition setattr (o : t) (key : string) (v : value) : t :=
  {| id := if (key =? "id")%string then store_int v (id o) else id o;
     name := if (key =? "name")%string then store_str v (name o) else name o;
     email := if (key =? "email")%string then store_str v (email o) else email o;
     age := if (key =? "age")%string then store_int v (age o) else age o;
     student_id := if (key =? "student_id")%string then store_str v (student_id o)
                   else student_id o |}.

(** The constructor [UserDB], called with keyword arguments. *)
Definition init (kwargs : list (string * value)) : t :=
  fold_left (fun o kv => setattr o (fst kv) (snd kv)) kwargs
            {| id := None; name := None; email := None; age := None;
               student_id := None |}.
End UserDB.

Module ProjectDB.
Record t := mk {
  id : option Z;
  name : option str;
  description : option str;
  owner_id : option Z
}.

Definition of_row (r : Projects.row) : t :=
  {| id := Some (Projects.id r); name := Some (Projects.name r);
     description := Projects.description r;
     owner_id := Some (Projects.owner_id r) |}.

Definition to_row (pk : Z) (o : t) : option Projects.row :=
  match name o, owner_id o with
  | Some n, Some w =>
      Some {| Projects.id := pk; Projects.name := n;
              Projects.description := description o; Projects.owner_id := w |}
  | _, _ => None
  end.

Definition setattr (o : t) (key : string) (v : value) : t :=
  {| id := if (key =? "id")%string then store_int v (id o) else id o;
     name := if (key =? "name")%string then store_str v (name o) else name o;
     description := if (key =? "description")%string then store_str v (description o)
                    else description o;
     owner_id := if (key =? "owner_id")%string then store_int v (owner_id o)
                 else owner_id o |}.

(** The constructor [ProjectDB], called with keyword arguments. *)
Definition init (kwargs : list (string * value)) : t :=
  fold_left (fun o kv => setattr o (fst kv) (snd kv)) kwargs
            {| id := None; name := None; description := None; owner_id := None |}.
End ProjectDB.

Module CourseDB.
Record t := mk {
  id : option Z;
  code : option str;
  name : option str;
  credits : option Z
}.

Definition of_row (r : Courses.row) : t :=
  {| id := Some (Courses.id r); code := Some (Courses.code r);
     name := Some (Courses.name r); credits := Some (Courses.credits r) |}.

Definition to_row (pk : Z) (o : t) : option Courses.row :=
  match code o, name o, credits o with
  | Some c, Some n, Some k =>
      Some {| Courses.id := pk; Courses.code := c; Courses.name := n;
              Courses.credits := k |}
  | _, _, _ => None
  end.

Definition setattr (o : t) (key : string) (v : value) : t :=
  {| id := if (key =? "id")%string then store_int v (id o) else id o;
     code := if (key =? "code")%string then store_str v (code o) else code o;
     name := if (key =? "name")%string then store_str v (name o) else name o;
     credits := if (key =? "credits")%string then store_int v (credits o)
                else credits o |}.

(** The constructor [CourseDB], called with keyword arguments. *)
Definition init (kwargs : list (string * value)) : t :=
  fold_left (fun o kv => setattr o (fst kv) (snd kv)) kwargs
            {| id := None; code := None; name := None; credits := None |}.
End CourseDB.

Inductive instance :=
  | User (o : UserDB.t)
  | Project (o : ProjectDB.t)
  | Course (o : CourseDB.t).

Inductive mapped_class := UserDB | ProjectDB | CourseDB.

Definition setattr (i : instance) (key : string) (v : value) : instance :=
  match i with
  | User o => User (UserDB.setattr o key v)
  | Project o => Project (ProjectDB.setattr o key v)
  | Course o => Course (CourseDB.setattr o key v)
  end.

#[global] Instance UserDB_eq_dec : EqDecision UserDB.t.
Proof. solve_decision. Defined.
#[global] Instance ProjectDB_eq_dec : EqDecision ProjectDB.t.
Proof. solve_decision. Defined.
#[global] Instance CourseDB_eq_dec : EqDecision CourseDB.t.
Proof. solve_decision. Defined.

Definition str_eqb (a b : str) : bool := bool_decide (a = b).

(** ** Exceptions *)

Inductive exn :=
  | HTTPException (status_code : Z) (detail : string)
  | IntegrityError
  | InvalidRequestError
  | OverflowError.

Inductive result (A : Type) :=
  | Ok (a : A)
  | Raise (e : exn).
Arguments Ok {A} a.
Arguments Raise {A} e.

Definition result_map {A B} (f : A -> B) (r : result A) : result B :=
  match r with
  | Ok a => Ok (f a)
  | Raise e => Raise e
  end.

(** ** The datastore *)

(** The engine, and with it the SQL dialect, is created in
    [app/database.py].  Where dialects differ the store does as SQLite: a
    generated integer primary key is one more than the largest key of the
    table, and a negative LIMIT bounds nothing.  Whether foreign keys are
    checked is left open. *)

(** An INTEGER column holds 64 bits, and the driver binds a Python [int]
    to a statement only if it fits: any other raises OverflowError.  The
    integers the schemas leave unbounded reach the driver as they come: the
    age of [UserCreate], an [owner_id], the integers of the path and of the
    query string.  Credits (1 to 120) and the age of the update schema (18
    to 150) are bounded before. *)
Definition int64 (z : Z) : bool :=
  (-9223372036854775808 <=? z) && (z <=? 9223372036854775807).

Definition next_id (ids : list Z) : Z := 1 + fold_right Z.max 0 ids.

Definition find_user (t : Database) (pk : Z) : option Users.row :=
  List.find (fun r => Users.id r =? pk) (users t).

Definition find_project (t : Database) (pk : Z) : option Projects.row :=
  List.find (fun r => Projects.id r =? pk) (projects t).

Definition find_course (t : Database) (pk : Z) : option Courses.row :=
  List.find (fun r => Courses.id r =? pk) (courses t).

Definition primary_key (o : option Z) (ids : list Z) : Z :=
  match o with
  | Some pk => pk
  | None => next_id ids
  end.

Section Store.

(** Whether the engine checks foreign keys. *)
Variable foreign_keys : bool.

(** *** INSERT

    The columns that may not be NULL are looked at first; no request both
    nulls a column and carries an integer outside 64 bits. *)

Definition insert_into_users (t : Database) (o : UserDB.t)
  : result (Database * UserDB.t) :=
  let pk := primary_key (UserDB.id o) (map Users.id (users t)) in
  match UserDB.to_row pk o with
  | None => Raise IntegrityError
  | Some r =>
      if negb (int64 (Users.age r)) then Raise OverflowError
      else if existsb (fun r' => Users.id r' =? pk) (users t)
         || existsb (fun r' => str_eqb (Users.email r') (Users.email r)) (users t)
         || existsb (fun r' => str_eqb (Users.student_id r') (Users.student_id r)) (users t)
      then Raise IntegrityError
      else Ok ({| users := users t ++ [r]; projects := projects t;
                  courses := courses t |}, UserDB.of_row r)
  end.

(** The handlers insert a project after they have read its owner from
    the users table. *)
Definition insert_into_projects (t : Database) (o : ProjectDB.t)
  : result (Database * ProjectDB.t) :=
  let pk := primary_key (ProjectDB.id o) (map Projects.id (projects t)) in
  match ProjectDB.to_row pk o with
  | None => Raise IntegrityError
  | Some r =>
      if existsb (fun r' => Projects.id r' =? pk) (projects t)
         || (foreign_keys
             && negb (existsb (fun r' => Users.id r' =? Projects.owner_id r) (users t)))
      then Raise IntegrityError
      else Ok ({| users := users t; projects := projects t ++ [r];
                  courses := courses t |}, ProjectDB.of_row r)
  end.

Definition insert_into_courses (t : Database) (o : CourseDB.t)
  : result (Database * CourseDB.t) :=
  let pk := primary_key (CourseDB.id o) (map Courses.id (courses t)) in
  match CourseDB.to_row pk o with
  | None => Raise IntegrityError
  | Some r =>
      if existsb (fun r' => Courses.id r' =? pk) (courses t)
         || existsb (fun r' => str_eqb (Courses.code r') (Courses.code r)) (courses t)
      then Raise IntegrityError
      else Ok ({| users := users t; projects := projects t;
                  courses := courses t ++ [r] |}, CourseDB.of_row r)
  end.

(** *** UPDATE of the row of a persistent instance

    Only a net change is written: the columns that change are bound to
    the statement, and a constraint is checked for them. *)

Definition update_users (t : Database) (o : UserDB.t) : result Database :=
  match UserDB.id o with
  | None => Raise IntegrityError
  | Some pk =>
      match find_user t pk with
      | None => Ok t
      | Some old =>
          if bool_decide (UserDB.of_row old = o) then Ok t
          else match UserDB.to_row pk o with
               | None => Raise IntegrityError
               | Some r =>
                   if negb (Users.age old =? Users.age r) && negb (int64 (Users.age r))
                   then Raise OverflowError
                   else if (negb (str_eqb (Users.email old) (Users.email r))
                       && existsb (fun r' => str_eqb (Users.email r') (Users.email r))
                                  (users t))
                      || (negb (str_eqb (Users.student_id old) (Users.student_id r))
                          && existsb (fun r' => str_eqb (Users.student_id r')
                                                        (Users.student_id r))
                                     (users t))
                   then Raise IntegrityError
                   else Ok {| users := map (fun r' => if Users.id r' =? pk
                                                      then r else r') (users t);
                              projects := projects t; courses := courses t |}
               end
      end
  end.

Definition update_projects (t : Database) (o : ProjectDB.t) : result Database :=
  match ProjectDB.id o with
  | None => Raise IntegrityError
  | Some pk =>
      match find_project t pk with
      | None => Ok t
      | Some old =>
          if bool_decide (ProjectDB.of_row old = o) then Ok t
          else match ProjectDB.to_row pk o with
               | None => Raise IntegrityError
               | Some r =>
                   if negb (Projects.owner_id old =? Projects.owner_id r)
                      && negb (int64 (Projects.owner_id r))
                   then Raise OverflowError
                   else if foreign_keys
                      && negb (Projects.owner_id old =? Projects.owner_id r)
                      && negb (existsb (fun r' => Users.id r' =? Projects.owner_id r)
                                       (users t))
                   then Raise IntegrityError
                   else Ok {| users := users t;
                              projects := map (fun r' => if Projects.id r' =? pk
                                                         then r else r') (projects t);
                              courses := courses t |}
               end
      end
  end.

Definition update_courses (t : Database) (o : CourseDB.t) : result Database :=
  match CourseDB.id o with
  | None => Raise IntegrityError
  | Some pk =>
      match find_course t pk with
      | None => Ok t
      | Some old =>
          if bool_decide (CourseDB.of_row old = o) then Ok t
          else match CourseDB.to_row pk o with
               | None => Raise IntegrityError
               | Some r =>
                   if negb (str_eqb (Courses.code old) (Courses.code r))
                      && existsb (fun r' => str_eqb (Courses.code r') (Courses.code r))
                                 (courses t)
                   then Raise IntegrityError
                   else Ok {| users := users t; projects := projects t;
                              courses := map (fun r' => if Courses.id r' =? pk
                                                        then r else r') (courses t) |}
               end
      end
  end.

(** *** DELETE

    [UserDB.projects] cascades ["all, delete-orphan"] and
    [ProjectDB.owner_id] is declared [ondelete="CASCADE"]: the projects
    of a deleted user are deleted with it. *)

Definition delete_from (t : Database) (i : instance) : Database :=
  match i with
  | User o =>
      {| users := List.filter (fun r => negb (bool_decide (Some (Users.id r) = UserDB.id o)))
                              (users t);
         projects := List.filter (fun r => negb (bool_decide
                                     (Some (Projects.owner_id r) = UserDB.id o)))
                                 (projects t);
         courses := courses t |}
  | Project o =>
      {| users := users t;
         projects := List.filter (fun r => negb (bool_decide
                                     (Some (Projects.id r) = ProjectDB.id o)))
                                 (projects t);
         courses := courses t |}
  | Course o =>
      {| users := users t; projects := projects t;
         courses := List.filter (fun r => negb (bool_decide
                                    (Some (Courses.id r) = CourseDB.id o)))
                                (courses t) |}
  end.

End Store.

(** ** The session ([sqlalchemy.orm.Session]) *)

(** The states of an instance with respect to the session. *)
Inductive state := Transient | Pending | Persistent | Deleted | Detached.

(** The handler's references to mapped instances are positions in
    [objects].  [committed] is what the datastore holds, [txn] what the
    session's open transaction sees. *)
Record Session := {
  committed : Database;
  txn : Database;
  objects : list (instance * state)
}.

Definition M (A : Type) : Type := Session -> result A * Session.

#[global] Instance M_ret : MRet M := fun A a s => (Ok a, s).

#[global] Instance M_bind : MBind M := fun A B f m s =>
  match m s with
  | (Ok a, s') => f a s'
  | (Raise e, s') => (Raise e, s')
  end.

Definition raise {A} (e : exn) : M A := fun s => (Raise e, s).

(** [try: body  except IntegrityError: handler] *)
Definition is_IntegrityError (e : exn) : bool :=
  match e with IntegrityError => true | _ => false end.

Definition try_except_IntegrityError {A} (body : M A) (handler : M A) : M A :=
  fun s =>
    match body s with
    | (Raise e, s') => if is_IntegrityError e then handler s' else (Raise e, s')
    | r => r
    end.

Definition set_objects (s : Session) (l : list (instance * state)) : Session :=
  {| committed := committed s; txn := txn s; objects := l |}.

Definition class_of (i : instance) : mapped_class :=
  match i with
  | User _ => UserDB
  | Project _ => ProjectDB
  | Course _ => CourseDB
  end.

Definition pk_of (i : instance) : option Z :=
  match i with
  | User o => UserDB.id o
  | Project o => ProjectDB.id o
  | Course o => CourseDB.id o
  end.

Definition same_class (a b : mapped_class) : bool :=
  match a, b with
  | UserDB, UserDB | ProjectDB, ProjectDB | CourseDB, CourseDB => true
  | _, _ => false
  end.

(** The row of class [c] with primary key [pk], as an instance. *)
Definition select_by_pk (t : Database) (c : mapped_class) (pk : Z) : option instance :=
  match c with
  | UserDB => option_map (fun r => User (UserDB.of_row r)) (find_user t pk)
  | ProjectDB => option_map (fun r => Project (ProjectDB.of_row r)) (find_project t pk)
  | CourseDB => option_map (fun r => Course (CourseDB.of_row r)) (find_course t pk)
  end.

Definition reload (t : Database) (i : instance) : option instance :=
  match pk_of i with
  | Some pk => select_by_pk t (class_of i) pk
  | None => None
  end.

Fixpoint index_of {A} (p : A -> bool) (l : list A) : option nat :=
  match l with
  | [] => None
  | x :: t => if p x then Some O else option_map S (index_of p t)
  end.

(** Membership in the identity map. *)
Definition identified (c : mapped_class) (pk : Z) (e : instance * state) : bool :=
  match e with
  | (i, Persistent) => same_class (class_of i) c && bool_decide (pk_of i = Some pk)
  | _ => false
  end.

(** [ClassName(...)]: a new object, unknown to the session. *)
Definition new (i : instance) : M nat := fun s =>
  (Ok (length (objects s)), set_objects s (objects s ++ [(i, Transient)])).

(** [db.add(obj)] *)
Definition add (r : nat) : M unit := fun s =>
  (Ok tt, set_objects s (alter (fun e => match e with
                                         | (i, Transient) | (i, Detached) => (i, Pending)
                                         | _ => e
                                         end) r (objects s))).

(** [db.get(cls, pk)]: the instance of the identity map, or the row
    loaded into a new persistent instance, or [None].  The keys of the
    rows are 64-bit integers: a key that is not one is the key of no row,
    and the driver refuses to bind it. *)
Definition get (c : mapped_class) (pk : Z) : M (option nat) := fun s =>
  match index_of (identified c pk) (objects s) with
  | Some r => (Ok (Some r), s)
  | None =>
      match select_by_pk (txn s) c pk with
      | Some i => (Ok (Some (length (objects s))),
                   set_objects s (objects s ++ [(i, Persistent)]))
      | None => if int64 pk then (Ok None, s) else (Raise OverflowError, s)
      end
  end.

(** Reading the attributes of an object (a snapshot of it). *)
Definition deref (r : nat) : M instance := fun s =>
  match objects s !! r with
  | Some (i, _) => (Ok i, s)
  | None => (Raise InvalidRequestError, s)
  end.

(** [for key, value in items: setattr(obj, key, value)] *)
Definition setattr_items (r : nat) (items : list (string * value)) : M unit := fun s =>
  (Ok tt, set_objects s
            (alter (fun e => (fold_left (fun i kv => setattr i (fst kv) (snd kv))
                                        items (fst e), snd e))
                   r (objects s))).

(** [db.delete(obj)] *)
Definition delete (r : nat) : M unit := fun s =>
  match objects s !! r with
  | Some (i, Persistent) => (Ok tt, set_objects s (<[r := (i, Deleted)]> (objects s)))
  | _ => (Raise InvalidRequestError, s)
  end.

(** [db.refresh(obj)]: an instance that is not persistent in the session,
    or whose row is gone, cannot be refreshed. *)
Definition refresh (r : nat) : M unit := fun s =>
  match objects s !! r with
  | Some (i, Persistent) =>
      match reload (txn s) i with
      | Some i' => (Ok tt, set_objects s (<[r := (i', Persistent)]> (objects s)))
      | None => (Raise InvalidRequestError, s)
      end
  | _ => (Raise InvalidRequestError, s)
  end.

(** [db.execute(stmt).scalars().all()] for a SELECT with the integers
    [parameters] bound to it: the instances of the rows, read in the
    transaction, once the driver has bound every parameter.  Every
    handler that queries does so in a fresh session, so there is nothing
    to flush first. *)
Definition scalars (parameters : list Z) (stmt : Database -> list instance)
  : M (list instance) := fun s =>
  if forallb int64 parameters then (Ok (stmt (txn s)), s)
  else (Raise OverflowError, s).

Section UnitOfWork.

Variable foreign_keys : bool.

(** What the flush writes for one object, or the exception of the
    statement. *)
Definition flush_one (t : Database) (e : instance * state)
  : result (Database * (instance * state)) :=
  match e with
  | (User o, Pending) =>
      result_map (fun '(t', o') => (t', (User o', Persistent))) (insert_into_users t o)
  | (Project o, Pending) =>
      result_map (fun '(t', o') => (t', (Project o', Persistent)))
                 (insert_into_projects foreign_keys t o)
  | (Course o, Pending) =>
      result_map (fun '(t', o') => (t', (Course o', Persistent))) (insert_into_courses t o)
  | (User o, Persistent) => result_map (fun t' => (t', e)) (update_users t o)
  | (Project o, Persistent) =>
      result_map (fun t' => (t', e)) (update_projects foreign_keys t o)
  | (Course o, Persistent) => result_map (fun t' => (t', e)) (update_courses t o)
  | (i, Deleted) => Ok (delete_from t i, (i, Detached))
  | (_, Transient) | (_, Detached) => Ok (t, e)
  end.

Fixpoint flush (t : Database) (l : list (instance * state))
  : result (Database * list (instance * state)) :=
  match l with
  | [] => Ok (t, [])
  | e :: rest =>
      match flush_one t e with
      | Raise x => Raise x
      | Ok (t', e') =>
          match flush t' rest with
          | Raise x => Raise x
          | Ok (t'', rest') => Ok (t'', e' :: rest')
          end
      end
  end.

(** [db.commit()]: flush, then make the transaction's writes durable.
    A failed flush leaves the datastore as it was. *)
Definition commit : M unit := fun s =>
  match flush (txn s) (objects s) with
  | Ok (t, l) => (Ok tt, {| committed := t; txn := t; objects := l |})
  | Raise x => (Raise x, s)
  end.

(** [db.rollback()]: the transaction is abandoned; pending objects are
    expunged, the others are as the datastore has them. *)
Definition restore (t : Database) (e : instance * state) : instance * state :=
  match e with
  | (i, Pending) => (i, Transient)
  | (i, Persistent) | (i, Deleted) =>
      match reload t i with
      | Some i' => (i', Persistent)
      | None => (i, Detached)
      end
  | _ => e
  end.

Definition rollback : M unit := fun s =>
  (Ok tt, {| committed := committed s; txn := committed s;
             objects := map (restore (committed s)) (objects s) |}).

End UnitOfWork.

(** ** SELECT statements *)

Fixpoint insert_by {A} (key : A -> Z) (x : A) (l : list A) : list A :=
  match l with
  | [] => [x]
  | y :: t => if key x <=? key y then x :: l else y :: insert_by key x t
  end.

(** [ORDER BY key] (ascending) *)
Definition order_by {A} (key : A -> Z) (l : list A) : list A :=
  fold_right (insert_by key) [] l.

(** [LIMIT n] and [OFFSET n]; a negative [n] bounds nothing and skips
    nothing. *)
Definition limit {A} (n : Z) (l : list A) : list A :=
  if n <? 0 then l else firstn (Z.to_nat n) l.

Definition offset {A} (n : Z) (l : list A) : list A :=
  skipn (Z.to_nat n) l.

Definition user_instances (l : list Users.row) : list instance :=
  map (fun r => User (UserDB.of_row r)) l.

Definition project_instances (l : list Projects.row) : list instance :=
  map (fun r => Project (ProjectDB.of_row r)) l.

Definition course_instances (l : list Courses.row) : list instance :=
  map (fun r => Course (CourseDB.of_row r)) l.

(** ** The handlers ([app/main.py]) *)

Section Handlers.

Variable foreign_keys : bool.

(** The exception is built and dropped: nothing is raised after the
    rollback, and the function returns [None]. *)
Definition commit_or_rollback (error_msg : string) : M unit :=
  try_except_IntegrityError
    (commit foreign_keys)
    (rollback;;
     let _ := HTTPException 409 error_msg in
     mret tt).

Definition create_course (course : CourseCreate.t) : M instance :=
  db_course ← new (Course (CourseDB.init (CourseCreate.model_dump course)));
  add db_course;;
  commit_or_rollback "Course already exists";;
  refresh db_course;;
  deref db_course.

Definition list_courses (limit_ offset_ : Z) : M (list instance) :=
  scalars [limit_; offset_] (fun t =>
    course_instances (limit limit_ (offset offset_ (order_by Courses.id (courses t))))).

Definition create_project (project : ProjectCreate.t) : M instance :=
  user ← get UserDB (ProjectCreate.owner_id project);
  match user with
  | None => raise (HTTPException 404 "User not found")
  | Some _ =>
      proj ← new (Project (ProjectDB.init
                [("name", PyStr (ProjectCreate.name project));
                 ("description", of_str (ProjectCreate.description project));
                 ("owner_id", PyInt (ProjectCreate.owner_id project))]));
      add proj;;
      commit_or_rollback "Project creation failed";;
      refresh proj;;
      deref proj
  end.

Definition list_projects : M (list instance) :=
  scalars [] (fun t => project_instances (order_by Projects.id (projects t))).

(** [scalar_one_or_none] raises MultipleResultsFound, an
    InvalidRequestError, on more than one row.  The owner is loaded with
    the project ([selectinload]), by the owner_id of the stored row. *)
Definition get_project_with_owner (project_id : Z)
  : M (instance * option instance) :=
  rows ← scalars [project_id] (fun t => project_instances
                   (List.filter (fun r => Projects.id r =? project_id) (projects t)));
  match rows with
  | [] => raise (HTTPException 404 "Project not found")
  | [proj] =>
      owner ← scalars [] (fun t => match proj with
                                | Project o =>
                                    user_instances
                                      (List.filter (fun r => bool_decide
                                         (Some (Users.id r) = ProjectDB.owner_id o))
                                         (users t))
                                | _ => []
                                end);
      mret (proj, head owner)
  | _ => raise InvalidRequestError
  end.

Definition update_project (project_id : Z) (payload : ProjectCreate.t) : M instance :=
  proj ← get ProjectDB project_id;
  match proj with
  | None => raise (HTTPException 404 "Project not found")
  | Some proj =>
      setattr_items proj (ProjectCreate.model_dump payload);;
      try_except_IntegrityError
        (commit foreign_keys;; refresh proj)
        (rollback;; raise (HTTPException 400 "Project already exists"));;
      deref proj
  end.

Definition patch_project (project_id : Z) (payload : ProjectUpdate.t) : M instance :=
  proj ← get ProjectDB project_id;
  match proj with
  | None => raise (HTTPException 404 "Project not found")
  | Some proj =>
      setattr_items proj (ProjectUpdate.model_dump_exclude_unset payload);;
      try_except_IntegrityError
        (commit foreign_keys;; refresh proj)
        (rollback;; raise (HTTPException 400 "Project already exists"));;
      deref proj
  end.

Definition get_user_projects (users_id : Z) : M (list instance) :=
  rows ← scalars [users_id] (fun t => project_instances
                   (List.filter (fun r => Projects.owner_id r =? users_id) (projects t)));
  mret rows.

Definition create_user_project (users_id : Z) (project : ProjectCreateForUser.t)
  : M instance :=
  user ← get UserDB users_id;
  match user with
  | None => raise (HTTPException 404 "User not found")
  | Some _ =>
      proj ← new (Project (ProjectDB.init
                [("name", PyStr (ProjectCreateForUser.name project));
                 ("description", of_str (ProjectCreateForUser.description project));
                 ("owner_id", PyInt users_id)]));
      add proj;;
      commit_or_rollback "Project creation failed";;
      refresh proj;;
      deref proj
  end.

Definition list_users : M (list instance) :=
  scalars [] (fun t => user_instances (order_by Users.id (users t))).

Definition get_user (users_id : Z) : M instance :=
  user ← get UserDB users_id;
  match user with
  | None => raise (HTTPException 404 "User not found")
  | Some user => deref user
  end.

Definition add_user (payload : UserCreate.t) : M instance :=
  user ← new (User (UserDB.init (UserCreate.model_dump payload)));
  add user;;
  try_except_IntegrityError
    (commit foreign_keys;; refresh user)
    (rollback;; raise (HTTPException 400 "User already exists"));;
  deref user.

Definition update_user (users_id : Z) (payload : UserCreate.t) : M instance :=
  user ← get UserDB users_id;
  match user with
  | None => raise (HTTPException 404 "User not found")
  | Some user =>
      setattr_items user (UserCreate.model_dump payload);;
      try_except_IntegrityError
        (commit foreign_keys;; refresh user)
        (rollback;; raise (HTTPException 400 "Email or Student ID already exists"));;
      deref user
  end.

Definition patch_user (users_id : Z) (payload : UserUpdate.t) : M instance :=
  user ← get UserDB users_id;
  match user with
  | None => raise (HTTPException 404 "User not found")
  | Some user =>
      setattr_items user (UserUpdate.model_dump_exclude_unset payload);;
      try_except_IntegrityError
        (commit foreign_keys;; refresh user)
        (rollback;; raise (HTTPException 400 "Email or Student ID already exists"));;
      deref user
  end.

Definition delete_user (users_id : Z) : M unit :=
  user ← get UserDB users_id;
  match user with
  | None => raise (HTTPException 404 "User not found")
  | Some user =>
      delete user;;
      commit foreign_keys
  end.

End Handlers.

(** ** Requests, routes and parameter binding (FastAPI) *)

Inductive method := GET | POST | PUT | PATCH | DELETE.

(** A segment of a route path: a literal, or a path parameter [{name}]. *)
Inductive segment :=
  | Lit (s : string)
  | Param (name : string).

Record Request := {
  request_method : method;
  path : list str;                (* the segments between the slashes *)
  query : gmap string str;
  json : option body
}.

Inductive content :=
  | Health                                          (* the dict of /health *)
  | Row (i : instance)
  | RowWithOwner (i : instance) (owner : option instance)
  | Rows (l : list instance)
  | Empty
  | Detail (msg : string)
  | ValidationErrors (errors : list (string * string))
  | InternalServerError.

Record Response := {
  status_code : Z;
  content_ : content
}.

Definition method_eqb (a b : method) : bool :=
  match a, b with
  | GET, GET | POST, POST | PUT, PUT | PATCH, PATCH | DELETE, DELETE => true
  | _, _ => false
  end.

(** The values of the path parameters, when the path fits the template. *)
Fixpoint match_path (template : list segment) (p : list str) : option (gmap string str) :=
  match template, p with
  | [], [] => Some ∅
  | Lit s :: template', x :: p' =>
      if str_eqb (u s) x then match_path template' p' else None
  | Param name :: template', x :: p' =>
      match x with
      | [] => None
      | _ :: _ => option_map (insert name x) (match_path template' p')
      end
  | _, _ => None
  end.

Definition declares (template : list segment) (name : string) : bool :=
  existsb (fun g => match g with
                    | Param n => (n =? name)%string
                    | Lit _ => false
                    end) template.

Definition both {A B} (a : validated A) (b : validated B) : validated (A * B) :=
  match a, b with
  | Valid x, Valid y => Valid (x, y)
  | Invalid e, Valid _ => Invalid e
  | Valid _, Invalid e => Invalid e
  | Invalid e1, Invalid e2 => Invalid (e1 ++ e2)
  end.

Definition with_args {A} (a : validated A) (call : A -> M content) : validated (M content) :=
  match a with
  | Valid x => Valid (call x)
  | Invalid e => Invalid e
  end.

Record route := {
  route_method : method;
  route_path : list segment;
  success_status : Z;
  (** The handler applied to its arguments, given the binding of the
      [int] parameters of its signature. *)
  endpoint : (string -> option Z -> validated Z) -> Request -> validated (M content)
}.

Section Application.

Variable Nd_beyond_ascii : N -> bool.
Variable str_as_int : str -> option Z.
Variable validate_email : str -> option str.
Variable foreign_keys : bool.

(** An [int] parameter of a handler is a path parameter when the route
    path declares its name, and a query parameter otherwise, required
    unless the signature gives a default. *)
Definition int_parameter (template : list segment) (path_params : gmap string str)
           (req : Request) (name : string) (default : option Z) : validated Z :=
  let raw := if declares template name then path_params !! name
             else query req !! name in
  match raw with
  | Some v => match str_as_int v with
              | Some z => Valid z
              | None => Invalid [(name, "int_parsing")]
              end
  | None => match default with
            | Some d => Valid d
            | None => Invalid [(name, "missing")]
            end
  end.

(** A parameter whose type is a schema is read from the JSON body. *)
Definition body_parameter {A} (validate : body -> validated A) (req : Request)
  : validated A :=
  match json req with
  | Some b => validate b
  | None => Invalid [("body", "missing")]
  end.

Definition row (m : M instance) : M content := i ← m; mret (Row i).
Definition rows (m : M (list instance)) : M content := l ← m; mret (Rows l).

Definition routes : list route := [
  {| route_method := GET; route_path := [Lit "health"]; success_status := 200;
     endpoint := fun _ _ => Valid (mret Health) |};
  {| route_method := POST; route_path := [Lit "api"; Lit "courses"];
     success_status := 201;
     endpoint := fun _ req =>
       with_args (body_parameter (validate_CourseCreate Nd_beyond_ascii str_as_int) req)
                 (fun course => row (create_course foreign_keys course)) |};
  {| route_method := GET; route_path := [Lit "api"; Lit "courses"];
     success_status := 200;
     endpoint := fun param _ =>
       with_args (both (param "limit" (Some 10)) (param "offset" (Some 0)))
                 (fun '(limit_, offset_) => rows (list_courses limit_ offset_)) |};
  {| route_method := POST; route_path := [Lit "api"; Lit "projects"];
     success_status := 201;
     endpoint := fun _ req =>
       with_args (body_parameter (validate_ProjectCreate Nd_beyond_ascii str_as_int) req)
                 (fun project => row (create_project foreign_keys project)) |};
  {| route_method := GET; route_path := [Lit "api"; Lit "projects"];
     success_status := 200;
     endpoint := fun _ _ => Valid (rows list_projects) |};
  {| route_method := GET; route_path := [Lit "api"; Lit "projects"; Param "project_id"];
     success_status := 200;
     endpoint := fun param _ =>
       with_args (param "project_id" None)
                 (fun project_id =>
                    r ← get_project_with_owner project_id;
                    mret (RowWithOwner (fst r) (snd r))) |};
  {| route_method := PUT;
     route_path := [Lit "api"; Lit "projects"; Lit "update"; Param "project_id"];
     success_status := 200;
     endpoint := fun param req =>
       with_args (both (param "project_id" None)
                       (body_parameter (validate_ProjectCreate Nd_beyond_ascii str_as_int) req))
                 (fun '(project_id, payload) =>
                    row (update_project foreign_keys project_id payload)) |};
  {| route_method := PATCH;
     route_path := [Lit "api"; Lit "projects"; Lit "patch"; Param "project_id"];
     success_status := 200;
     endpoint := fun param req =>
       with_args (both (param "project_id" None)
                       (body_parameter (validate_ProjectUpdate Nd_beyond_ascii) req))
                 (fun '(project_id, payload) =>
                    row (patch_project foreign_keys project_id payload)) |};
  {| route_method := GET;
     route_path := [Lit "api"; Lit "users"; Param "users_id"; Lit "projects"];
     success_status := 200;
     endpoint := fun param _ =>
       with_args (param "users_id" None)
                 (fun users_id => rows (get_user_projects users_id)) |};
  {| route_method := POST;
     route_path := [Lit "api"; Lit "users"; Param "user_id"; Lit "projects"];
     success_status := 201;
     endpoint := fun param req =>
       with_args (both (param "users_id" None)
                       (body_parameter (validate_ProjectCreateForUser Nd_beyond_ascii) req))
                 (fun '(users_id, project) =>
                    row (create_user_project foreign_keys users_id project)) |};
  {| route_method := GET; route_path := [Lit "api"; Lit "users"];
     success_status := 200;
     endpoint := fun _ _ => Valid (rows list_users) |};
  {| route_method := GET; route_path := [Lit "api"; Lit "users"; Param "users_id"];
     success_status := 200;
     endpoint := fun param _ =>
       with_args (param "users_id" None) (fun users_id => row (get_user users_id)) |};
  {| route_method := POST; route_path := [Lit "api"; Lit "users"];
     success_status := 201;
     endpoint := fun _ req =>
       with_args (body_parameter
                    (validate_UserCreate Nd_beyond_ascii str_as_int validate_email) req)
                 (fun payload => row (add_user foreign_keys payload)) |};
  {| route_method := PUT;
     route_path := [Lit "api"; Lit "users"; Lit "update"; Param "users_id"];
     success_status := 200;
     endpoint := fun param req =>
       with_args (both (param "users_id" None)
                       (body_parameter
                          (validate_UserCreate Nd_beyond_ascii str_as_int validate_email)
                          req))
                 (fun '(users_id, payload) =>
                    row (update_user foreign_keys users_id payload)) |};
  {| route_method := PATCH;
     route_path := [Lit "api"; Lit "users"; Lit "patch"; Param "users_id"];
     success_status := 200;
     endpoint := fun param req =>
       with_args (both (param "users_id" None)
                       (body_parameter
                          (validate_UserUpdate Nd_beyond_ascii str_as_int validate_email)
                          req))
                 (fun '(users_id, payload) =>
                    row (patch_user foreign_keys users_id payload)) |};
  {| route_method := DELETE;
     route_path := [Lit "api"; Lit "users"; Lit "delete"; Param "users_id"];
     success_status := 204;
     endpoint := fun param _ =>
       with_args (param "users_id" None)
                 (fun users_id => delete_user foreign_keys users_id;; mret Empty) |}
].

(** The first route whose path and method fit the request. *)
Fixpoint find_route (l : list route) (req : Request)
  : option (route * gmap string str) :=
  match l with
  | [] => None
  | r :: l' =>
      match match_path (route_path r) (path req) with
      | Some path_params =>
          if method_eqb (route_method r) (request_method req)
          then Some (r, path_params)
          else find_route l' req
      | None => find_route l' req
      end
  end.

(** A request gets a session of its own, closed when the handler is
    done: what was not committed is gone. *)
Definition open_session (db : Database) : Session :=
  {| committed := db; txn := db; objects := [] |}.

Definition respond (success : Z) (m : M content) (db : Database) : Response * Database :=
  match m (open_session db) with
  | (Ok c, s) => ({| status_code := success; content_ := c |}, committed s)
  | (Raise (HTTPException code detail), s) =>
      ({| status_code := code; content_ := Detail detail |}, committed s)
  | (Raise _, s) =>
      ({| status_code := 500; content_ := InternalServerError |}, committed s)
  end.

Definition handle (req : Request) (db : Database) : Response * Database :=
  match find_route routes req with
  | Some (r, path_params) =>
      match endpoint r (int_parameter (route_path r) path_params req) req with
      | Valid m => respond (success_status r) m db
      | Invalid errors =>
          ({| status_code := 422; content_ := ValidationErrors errors |}, db)
      end
  | None =>
      if existsb (fun r => bool_decide (is_Some (match_path (route_path r) (path req))))
                 routes
      then ({| status_code := 405; content_ := Detail "Method Not Allowed" |}, db)
      else ({| status_code := 404; content_ := Detail "Not Found" |}, db)
  end.

End Application.

(** ** Reading the outcome of a validation *)

(** The error list of a rejected model names [loc]. *)
Definition rejects_field {A} (v : validated A) (loc : string) : Prop :=
  match v with
  | Valid _ => False
  | Invalid errors => exists e, In (loc, e) errors
  end.

(** Following the words of the specification: the letter S followed by
    exactly 7 digits, 0 to 9. *)
Definition S_followed_by_7_digits (s : str) : Prop :=
  exists ds, s = 83%N :: ds /\ length ds = 7%nat
             /\ Forall (fun c => (48 <= c <= 57)%N) ds.

(** The decimal digits of Unicode: 0 to 9, the Arabic-Indic digits, and
    the code points beyond ASCII that the table [Nd] of the engine
    holds. *)
Definition decimal_digit (Nd : N -> bool) (c : N) : Prop :=
  (48 <= c <= 57)%N \/ (1632 <= c <= 1641)%N \/ ((128 <= c)%N /\ Nd c = true).

Definition S_followed_by_7_decimal_digits (Nd : N -> bool) (s : str) : Prop :=
  exists ds, s = 83%N :: ds /\ length ds = 7%nat /\ Forall (decimal_digit Nd) ds.

(** A string of ASCII. *)
Definition ascii_str (s : str) : Prop := Forall (fun c => (c < 128)%N) s.

(** The letter S and seven times the Arabic-Indic digit one. *)
Definition S_arabic_indic : str := 83%N :: repeat 1633%N 7.

(** An integer one beyond the 64 bits of an INTEGER column. *)
Definition two_to_63 : Z := 9223372036854775808.

(** Every project is owned by a user of the store. *)
Definition referential_integrity (db : Database) : Prop :=
  forall p, In p (projects db) -> exists r, find_user db (Projects.owner_id p) = Some r.

Definition with_age (r : Users.row) (a : Z) : Users.row :=
  {| Users.id := Users.id r; Users.name := Users.name r; Users.email := Users.email r;
     Users.age := a; Users.student_id := Users.student_id r |}.


(** The table after the row with key [pk] is replaced by [r]. *)
Definition replace_project (pk : Z) (r : Projects.row) (l : list Projects.row)
  : list Projects.row :=
  map (fun r' => if Projects.id r' =? pk then r else r') l.

(** Update payloads that set one field. *)
Definition age_only (a : Z) : UserUpdate.t :=
  {| UserUpdate.student_id := Unset; UserUpdate.name := Unset;
     UserUpdate.email := Unset; UserUpdate.age := Set_ (Some a) |}.

Definition description_only (d : option str) : ProjectUpdate.t :=
  {| ProjectUpdate.name := Unset; ProjectUpdate.description := Set_ d |}.

(** Requests. *)
Definition POST_users (b : body) : Request :=
  {| request_method := POST; path := [u "api"; u "users"]; query := ∅; json := Some b |}.

Definition PATCH_user (users_id : str) (b : body) : Request :=
  {| request_method := PATCH; path := [u "api"; u "users"; u "patch"; users_id];
     query := ∅; json := Some b |}.


Definition GET_user_projects (users_id : str) : Request :=
  {| request_method := GET; path := [u "api"; u "users"; users_id; u "projects"];
     query := ∅; json := None |}.

Definition POST_user_projects (user_id : str) (q : gmap string str) (b : body) : Request :=
  {| request_method := POST; path := [u "api"; u "users"; user_id; u "projects"];
     query := q; json := Some b |}.

(** An environment to run the application in: [\d] holds the ASCII digits
    only, integers are read in decimal, and every address is taken as it
    is. *)
Definition ascii_only (c : N) : bool := false.

Fixpoint decimal_from (acc : Z) (s : str) : option Z :=
  match s with
  | [] => Some acc
  | c :: t => if ascii_digit c then decimal_from (10 * acc + (Z.of_N c - 48)) t else None
  end.

Definition decimal (s : str) : option Z :=
  match s with
  | [] => None
  | _ :: _ => decimal_from 0 s
  end.

Definition any_address (s : str) : option str := Some s.

(** A store to run the handlers on. *)
Definition ada : Users.row :=
  {| Users.id := 1; Users.name := u "Ada"; Users.email := u "ada@example.com";
     Users.age := 36; Users.student_id := u "S0000001" |}.

Definition bob : Users.row :=
  {| Users.id := 2; Users.name := u "Bob"; Users.email := u "bob@example.com";
     Users.age := 19; Users.student_id := u "S0000002" |}.

Definition engine : Projects.row :=
  {| Projects.id := 1; Projects.name := u "Engine";
     Projects.description := Some (u "notes"); Projects.owner_id := 1 |}.

Definition algebra : Courses.row :=
  {| Courses.id := 1; Courses.code := u "MA101"; Courses.name := u "Algebra";
     Courses.credits := 5 |}.

Definition sample_db : Database :=
  {| users := [ada; bob]; projects := [engine]; courses := [algebra] |}.

Definition empty_db : Database := {| users := []; projects := []; courses := [] |}.

(** Payloads and bodies for it. *)
Definition algebra_again : CourseCreate.t :=
  {| CourseCreate.code := u "MA101"; CourseCreate.name := u "Algebra II";
     CourseCreate.credits := 10 |}.

Definition logic : CourseCreate.t :=
  {| CourseCreate.code := u "CS200"; CourseCreate.name := u "Logic";
     CourseCreate.credits := 5 |}.


Definition ada_again : UserCreate.t :=
  {| UserCreate.student_id := u "S0000009"; UserCreate.name := u "Ada L";
     UserCreate.email := u "ada@example.com"; UserCreate.age := 40 |}.

Definition body_of_age (a : Z) : body :=
  <["student_id" := PyStr (u "S1234567")]>
    (<["name" := PyStr (u "Eve")]>
       (<["email" := PyStr (u "eve@example.com")]> {["age" := PyInt a]})).

Definition handover : ProjectCreate.t :=
  {| ProjectCreate.name := u "Engine 2"; ProjectCreate.description := None;
     ProjectCreate.owner_id := 2 |}.

Definition parser_of (owner : Z) : Projects.row :=
  {| Projects.id := 2; Projects.name := u "Parser"; Projects.description := None;
     Projects.owner_id := owner |}.

Definition parser_body : body := {["name" := PyStr (u "Parser")]}.

(** The row a create request adds for [course]. *)
Definition created_course (db : Database) (course : CourseCreate.t) : Courses.row :=
  {| Courses.id := next_id (map Courses.id (courses db));
     Courses.code := CourseCreate.code course;
     Courses.name := CourseCreate.name course;
     Courses.credits := CourseCreate.credits course |}.

(** The row a full update leaves under key [project_id]. *)
Definition replaced (project_id : Z) (payload : ProjectCreate.t) : Projects.row :=
  {| Projects.id := project_id; Projects.name := ProjectCreate.name payload;
     Projects.description := ProjectCreate.description payload;
     Projects.owner_id := ProjectCreate.owner_id payload |}.

(** The order of [ORDER BY key]. *)
Definition by_key {A} (key : A -> Z) (a b : A) : Prop := key a <= key b.

(** More payloads and bodies for the store above. *)
Definition eve : UserCreate.t :=
  {| UserCreate.student_id := u "S1234567"; UserCreate.name := u "Eve";
     UserCreate.email := u "eve@example.com"; UserCreate.age := 19 |}.

Definition ada_older : UserCreate.t :=
  {| UserCreate.student_id := u "S0000001"; UserCreate.name := u "Ada King";
     UserCreate.email := u "ada@example.com"; UserCreate.age := 37 |}.

Definition ada_as_bob : UserCreate.t :=
  {| UserCreate.student_id := u "S0000001"; UserCreate.name := u "Ada";
     UserCreate.email := u "bob@example.com"; UserCreate.age := 36 |}.

Definition orphaning : ProjectCreate.t :=
  {| ProjectCreate.name := u "Engine"; ProjectCreate.description := None;
     ProjectCreate.owner_id := 9 |}.

Definition compiler : ProjectCreateForUser.t :=
  {| ProjectCreateForUser.name := u "Compiler";
     ProjectCreateForUser.description := Some (u "draft") |}.

Definition name_null : UserUpdate.t :=
  {| UserUpdate.student_id := Unset; UserUpdate.name := Set_ None;
     UserUpdate.email := Unset; UserUpdate.age := Unset |}.


(** Payloads and bodies with an integer beyond 64 bits. *)
Definition ada_again_beyond : UserCreate.t :=
  {| UserCreate.student_id := u "S0000009"; UserCreate.name := u "Ada L";
     UserCreate.email := u "ada@example.com"; UserCreate.age := two_to_63 |}.

Definition ada_again_beyond_body : body :=
  <["student_id" := PyStr (u "S0000009")]>
    (<["name" := PyStr (u "Ada L")]>
       (<["email" := PyStr (u "ada@example.com")]> {["age" := PyInt two_to_63]})).

Definition handover_beyond : ProjectCreate.t :=
  {| ProjectCreate.name := u "Engine 2"; ProjectCreate.description := None;
     ProjectCreate.owner_id := two_to_63 |}.

(** The rows the create requests add. *)
Definition created_user (db : Database) (payload : UserCreate.t) : Users.row :=
  {| Users.id := next_id (map Users.id (users db));
     Users.name := UserCreate.name payload;
     Users.email := UserCreate.email payload;
     Users.age := UserCreate.age payload;
     Users.student_id := UserCreate.student_id payload |}.

Definition created_project (db : Database) (name : str) (description : option str)
           (owner_id : Z) : Projects.row :=
  {| Projects.id := next_id (map Projects.id (projects db));
     Projects.name := name; Projects.description := description;
     Projects.owner_id := owner_id |}.

(** The row a full update of a user leaves under key [users_id]. *)
Definition replaced_user (users_id : Z) (payload : UserCreate.t) : Users.row :=
  {| Users.id := users_id; Users.name := UserCreate.name payload;
     Users.email := UserCreate.email payload; Users.age := UserCreate.age payload;
     Users.student_id := UserCreate.student_id payload |}.

(** Update payloads that set nothing. *)
Definition nothing_set_user : UserUpdate.t :=
  {| UserUpdate.student_id := Unset; UserUpdate.name := Unset;
     UserUpdate.email := Unset; UserUpdate.age := Unset |}.

Definition nothing_set_project : ProjectUpdate.t :=
  {| ProjectUpdate.name := Unset; ProjectUpdate.description := Unset |}.

(** Some column that may not be NULL is set to [None]. *)
Definition nulls_a_column (p : UserUpdate.t) : Prop :=
  UserUpdate.student_id p = Set_ None \/ UserUpdate.name p = Set_ None
  \/ UserUpdate.email p = Set_ None \/ UserUpdate.age p = Set_ None.

(** The constraints the tables declare: primary keys, the unique columns
    and, when the engine checks them, the foreign key of a project. *)
Record constraints_hold (foreign_keys : bool) (db : Database) : Prop := {
  user_ids : List.NoDup (map Users.id (users db));
  user_emails : List.NoDup (map Users.email (users db));
  user_student_ids : List.NoDup (map Users.student_id (users db));
  project_ids : List.NoDup (map Projects.id (projects db));
  course_ids : List.NoDup (map Courses.id (courses db));
  course_codes : List.NoDup (map Courses.code (courses db));
  project_owners : foreign_keys = true -> referential_integrity db
}.

(** A computation keeps the constraints of what is committed and of what
    the transaction sees. *)
Definition keeps (foreign_keys : bool) {A} (m : M A) : Prop :=
  forall s r s',
    constraints_hold foreign_keys (committed s) ->
    constraints_hold foreign_keys (txn s) ->
    m s = (r, s') ->
    constraints_hold foreign_keys (committed s')
    /\ constraints_hold foreign_keys (txn s').

(** A computation that commits nothing. *)
Definition reads {A} (m : M A) : Prop :=
  forall s, committed (snd (m s)) = committed s.

(** ** Properties of the patterns *)

Section PatternFacts.

Variable Nd : N -> bool.

Lemma anchored_search_misses (r : regex) (s : str) :
  search_from Nd (Seq Bol r) false s = false.
Proof.
  induction s as [|c s IH]; simpl; [reflexivity|].
  exact IH.
Qed.

Lemma is_digit_decimal_digit (c : N) : is_digit Nd c = true <-> decimal_digit Nd c.
Proof.
  unfold is_digit, decimal_digit, ascii_digit, arabic_indic_digit.
  rewrite !orb_true_iff, !andb_true_iff, !N.leb_le. tauto.
Qed.

Lemma decimal_digit_ascii (c : N) :
  (c < 128)%N -> decimal_digit Nd c <-> (48 <= c <= 57)%N.
Proof. unfold decimal_digit. lia. Qed.

Lemma is_match_StudentID_pattern (s : str) :
  is_match Nd StudentID_pattern s = true <-> S_followed_by_7_decimal_digits Nd s.
Proof.
  unfold is_match, StudentID_pattern, S_followed_by_7_decimal_digits.
  split.
  - intros H.
    destruct s as [|c0 s]; [discriminate H|].
    simpl in H. rewrite anchored_search_misses, orb_false_r in H.
    apply andb_prop in H as [Hc H]. apply N.eqb_eq in Hc. subst c0.
    exists s. split; [reflexivity|].
    repeat (destruct s as [|? s]; [discriminate H|];
            apply andb_prop in H as [? H]).
    destruct s; [|discriminate H].
    split; [reflexivity|].
    repeat (constructor; [apply is_digit_decimal_digit; assumption|]).
    constructor.
  - intros (ds & -> & Hlen & Hd).
    do 8 (destruct ds as [|? ds]; try discriminate Hlen).
    repeat match goal with
           | H : Forall _ (_ :: _) |- _ => inversion H; subst; clear H
           end.
    simpl.
    repeat match goal with
           | H : decimal_digit _ _ |- _ =>
               apply is_digit_decimal_digit in H; rewrite H; clear H
           end.
    reflexivity.
Qed.

(** Among the strings of ASCII the two readings of "digit" agree. *)
Lemma S_followed_by_7_digits_ascii (s : str) :
  ascii_str s -> S_followed_by_7_decimal_digits Nd s <-> S_followed_by_7_digits s.
Proof.
  intros Ha. unfold S_followed_by_7_decimal_digits, S_followed_by_7_digits.
  split; intros (ds & -> & Hlen & Hd); exists ds;
    (split; [reflexivity|]); (split; [exact Hlen|]);
    apply Forall_cons_1 in Ha as [_ Ha];
    apply List.Forall_forall; intros c Hin;
    pose proof (proj1 (List.Forall_forall _ _) Ha c Hin) as Hc;
    pose proof (proj1 (List.Forall_forall _ _) Hd c Hin) as Hdc;
    apply (decimal_digit_ascii c Hc); exact Hdc.
Qed.

End PatternFacts.

(** ** Facts about the store *)

Ltac session_ops :=
  unfold respond, row, rows, commit_or_rollback, try_except_IntegrityError,
    mbind, M_bind, mret, M_ret, get, new, add, deref, setattr_items, delete,
    refresh, scalars, commit, rollback, raise, set_objects, open_session, reload in *.

Lemma str_eqb_refl (s : str) : str_eqb s s = true.
Proof. unfold str_eqb. apply bool_decide_eq_true. reflexivity. Qed.

Lemma str_eqb_eq (a b : str) : str_eqb a b = true <-> a = b.
Proof. unfold str_eqb. apply bool_decide_eq_true. Qed.

Lemma find_user_id (t : Database) (pk : Z) (r : Users.row) :
  find_user t pk = Some r -> Users.id r = pk.
Proof. unfold find_user. intros H. apply find_some in H as [_ H]. lia. Qed.

Lemma find_project_id (t : Database) (pk : Z) (r : Projects.row) :
  find_project t pk = Some r -> Projects.id r = pk.
Proof. unfold find_project. intros H. apply find_some in H as [_ H]. lia. Qed.

Lemma find_replace {A} (p : A -> bool) (g : A) (l : list A) (r : A) :
  List.find p l = Some r -> p g = true ->
  List.find p (map (fun x => if p x then g else x) l) = Some g.
Proof.
  intros H Hg. induction l as [|x l IH]; simpl in *; [discriminate|].
  destruct (p x) eqn:E.
  - rewrite Hg. reflexivity.
  - rewrite E. auto.
Qed.

Lemma find_filter_out {A} (p : A -> bool) (l : list A) :
  List.find p (List.filter (fun x => negb (p x)) l) = None.
Proof.
  induction l as [|x l IH]; simpl; [reflexivity|].
  destruct (p x) eqn:E; simpl; [exact IH|]. rewrite E. exact IH.
Qed.

Lemma find_user_exists (t : Database) (pk : Z) (r : Users.row) :
  find_user t pk = Some r -> existsb (fun r' => Users.id r' =? pk) (users t) = true.
Proof.
  unfold find_user. intros H. apply find_some in H as [Hin H].
  apply existsb_exists. exists r. split; assumption.
Qed.


Lemma store_str_of_str (d old : option str) : store_str (of_str d) old = d.
Proof. destruct d; reflexivity. Qed.

Lemma next_id_above (ids : list Z) (x : Z) : In x ids -> x < next_id ids.
Proof.
  unfold next_id. induction ids as [|y ids IH]; simpl; [tauto|].
  intros [->|H]; [lia|]. specialize (IH H). lia.
Qed.

Lemma next_id_fresh {A} (key : A -> Z) (l : list A) :
  existsb (fun r => key r =? next_id (map key l)) l = false.
Proof.
  destruct (existsb _ l) eqn:E; [|reflexivity].
  apply existsb_exists in E as (r & Hin & Hr). apply Z.eqb_eq in Hr.
  pose proof (next_id_above (map key l) (key r) (in_map key l r Hin)). lia.
Qed.

Lemma find_snoc {A} (p : A -> bool) (l : list A) (x : A) :
  List.find p l = None -> p x = true -> List.find p (l ++ [x]) = Some x.
Proof.
  intros H Hx. induction l as [|y l IH]; simpl in *; [rewrite Hx; reflexivity|].
  destruct (p y); [discriminate H|]. apply IH, H.
Qed.

(** ** ORDER BY, LIMIT, OFFSET *)

Section Ordering.

Context {A : Type} (key : A -> Z).

Lemma insert_by_Permutation (x : A) (l : list A) :
  Permutation (insert_by key x l) (x :: l).
Proof.
  induction l as [|y l IH]; simpl; [reflexivity|].
  destruct (key x <=? key y); [reflexivity|].
  rewrite IH. apply perm_swap.
Qed.

Lemma order_by_Permutation (l : list A) : Permutation (order_by key l) l.
Proof.
  induction l as [|x l IH]; simpl; [reflexivity|].
  rewrite insert_by_Permutation. apply perm_skip, IH.
Qed.

Lemma insert_by_Sorted (x : A) (l : list A) :
  Sorted (by_key key) l -> Sorted (by_key key) (insert_by key x l).
Proof.
  induction 1 as [|y l Hs IH Hd]; simpl.
  - repeat constructor.
  - destruct (key x <=? key y) eqn:E.
    + apply Z.leb_le in E. repeat constructor; assumption.
    + apply Z.leb_gt in E. constructor; [exact IH|].
      destruct Hd as [|z l Hyz]; simpl.
      * repeat constructor. unfold by_key. lia.
      * destruct (key x <=? key z); constructor; unfold by_key in *; lia.
Qed.

Lemma order_by_Sorted (l : list A) : Sorted (by_key key) (order_by key l).
Proof.
  induction l as [|x l IH]; simpl; [constructor|].
  apply insert_by_Sorted, IH.
Qed.

Lemma order_by_StronglySorted (l : list A) :
  StronglySorted (by_key key) (order_by key l).
Proof.
  apply Sorted_StronglySorted; [|apply order_by_Sorted].
  intros a b c. unfold by_key. lia.
Qed.

End Ordering.

Lemma limit_firstn {A} (n : Z) (l : list A) :
  0 <= n -> limit n l = firstn (Z.to_nat n) l.
Proof. intros H. unfold limit. destruct (Z.ltb_spec n 0); [lia|reflexivity]. Qed.

(** ** Routing *)

Lemma find_route_miss_path (r : route) (l : list route) (req : Request) :
  match_path (route_path r) (path req) = None ->
  find_route (r :: l) req = find_route l req.
Proof. intros H. simpl. rewrite H. reflexivity. Qed.

Lemma find_route_miss_method (r : route) (l : list route) (req : Request) :
  method_eqb (route_method r) (request_method req) = false ->
  find_route (r :: l) req = find_route l req.
Proof. intros H. simpl. rewrite H. destruct (match_path _ _); reflexivity. Qed.

Lemma find_route_hit (r : route) (l : list route) (req : Request) (pp : gmap string str) :
  match_path (route_path r) (path req) = Some pp ->
  method_eqb (route_method r) (request_method req) = true ->
  find_route (r :: l) req = Some (r, pp).
Proof. intros H1 H2. simpl. rewrite H1, H2. reflexivity. Qed.

Ltac skip_route :=
  first [ rewrite find_route_miss_path by reflexivity
        | rewrite find_route_miss_method by reflexivity ].

Ltac take_route := erewrite find_route_hit by reflexivity.

Ltac call_endpoint :=
  cbv beta iota delta [endpoint success_status route_path body_parameter with_args both
                       json query int_parameter declares existsb];
  cbn [String.eqb Ascii.eqb Bool.eqb orb].

(** ** The handlers on the store *)

Section HandlerFacts.

Variable foreign_keys : bool.

(** A flush raises nothing but an IntegrityError or an OverflowError. *)
Lemma flush_raises (t : Database) (l : list (instance * state)) (e : exn) :
  flush foreign_keys t l = Raise e -> e = IntegrityError \/ e = OverflowError.
Proof.
  revert t. induction l as [|[i st] l IH]; intros t; cbn [flush]; [discriminate|].
  destruct (flush_one foreign_keys t (i, st)) as [[t' e']|x] eqn:H1.
  - destruct (flush foreign_keys t' l) as [[t'' l']|x] eqn:H2; [discriminate|].
    intros [= <-]. eauto.
  - intros [= <-]. revert H1. unfold flush_one.
    destruct i as [o|o|o], st; try discriminate;
      unfold insert_into_users, insert_into_projects, insert_into_courses,
             update_users, update_projects, update_courses, result_map;
      repeat (match goal with
              | |- context [match ?x with _ => _ end] =>
                  lazymatch x with
                  | context [match _ with _ => _ end] => fail
                  | _ => destruct x
                  end
              end; cbn);
      intros [= <-]; auto.
Qed.

(** An IntegrityError of the commit is swallowed: [commit_or_rollback]
    returns normally, unless the driver refused an integer. *)
Lemma commit_or_rollback_returns (error_msg : string) (s : Session) :
  (exists s', commit_or_rollback foreign_keys error_msg s = (Ok tt, s'))
  \/ commit_or_rollback foreign_keys error_msg s = (Raise OverflowError, s).
Proof.
  session_ops.
  destruct (flush foreign_keys (txn s) (objects s)) as [[t l]|x] eqn:E; cbn.
  - left. eexists; reflexivity.
  - destruct (flush_raises _ _ _ E) as [-> | ->]; cbn.
    + left. eexists; reflexivity.
    + right. reflexivity.
Qed.



Lemma patch_user_age (db : Database) (users_id : Z) (r : Users.row) (a : Z) :
  find_user db users_id = Some r ->
  int64 a = true ->
  exists s',
    patch_user foreign_keys users_id (age_only a) (open_session db)
    = (Ok (User (UserDB.of_row (with_age r a))), s')
    /\ find_user (committed s') users_id = Some (with_age r a).
Proof.
  intros H H64. pose proof (find_user_id _ _ _ H) as Hid. subst users_id.
  unfold patch_user. session_ops. cbn.
  rewrite H. cbn. unfold update_users, UserDB.setattr. cbn. rewrite H.
  case_bool_decide as Heq.
  - cbn. rewrite H. cbn.
    injection Heq as Heq.
    assert (with_age r a = r) as ->
        by (destruct r; unfold with_age; cbn in *; congruence).
    eexists. split; [reflexivity|]. cbn. exact H.
  - rewrite H64, andb_false_r, !str_eqb_refl. cbn.
    unfold find_user at 1. cbn.
    erewrite find_replace; [| exact H | cbn; lia ].
    cbn. eexists. split; [reflexivity|].
    cbn. unfold find_user. cbn. erewrite find_replace; [| exact H | cbn; lia].
    reflexivity.
Qed.

(** X1: a course whose code is free is stored under a generated key and
    returned with it. *)
Lemma create_course_fresh_code (db : Database) (course : CourseCreate.t) :
  existsb (fun r => str_eqb (Courses.code r) (CourseCreate.code course)) (courses db)
  = false ->
  exists s',
    create_course foreign_keys course (open_session db)
    = (Ok (Course (CourseDB.of_row (created_course db course))), s')
    /\ committed s' = {| users := users db; projects := projects db;
                         courses := courses db ++ [created_course db course] |}.
Proof.
  intros H. unfold create_course. session_ops. cbn.
  unfold insert_into_courses. cbn.
  rewrite (next_id_fresh Courses.id), H. cbn.
  unfold find_course. cbn.
  erewrite find_snoc; [cbn; eexists; split; reflexivity| |cbn; lia].
  destruct (List.find _ (courses db)) as [r|] eqn:E; [|reflexivity].
  apply find_some in E as [Hin Hr]. apply Z.eqb_eq in Hr.
  pose proof (next_id_above _ _ (in_map Courses.id _ _ Hin)). lia.
Qed.

(** C1: a create request whose insert violates a unique constraint should
    fail with a Conflict error.  On a course whose code is taken,
    [commit_or_rollback] rolls back and returns; [create_course] goes on
    to refresh the expunged object, and the request ends in an
    InvalidRequestError, a 500, not in a conflict.  Nothing is stored. *)
Theorem create_course_duplicate_code (db : Database) (course : CourseCreate.t)
        (r : Courses.row) :
  In r (courses db) ->
  Courses.code r = CourseCreate.code course ->
  exists s',
    create_course foreign_keys course (open_session db) = (Raise InvalidRequestError, s')
    /\ committed s' = db
    /\ respond 201 (row (create_course foreign_keys course)) db
       = ({| status_code := 500; content_ := InternalServerError |}, db).
Proof.
  intros Hin Hcode.
  assert (Hdup : existsb (fun r' => str_eqb (Courses.code r') (CourseCreate.code course))
                         (courses db) = true).
  { apply existsb_exists. exists r. split; [exact Hin|]. apply str_eqb_eq, Hcode. }
  unfold create_course. session_ops. cbn.
  unfold insert_into_courses. cbn. rewrite Hdup, orb_true_r. cbn.
  eexists. split; [reflexivity|]. split; reflexivity.
Qed.

(** C2: creating a user whose email or student_id is that of a stored
    user, with an age within 64 bits, fails with the conflict response
    (400, "User already exists"); with an age beyond, the driver refuses
    the age and the request ends in an OverflowError, a 500.  Either way
    the datastore is what it was. *)
Theorem add_user_duplicate (db : Database) (payload : UserCreate.t) (r : Users.row) :
  In r (users db) ->
  Users.email r = UserCreate.email payload
  \/ Users.student_id r = UserCreate.student_id payload ->
  exists s',
    add_user foreign_keys payload (open_session db)
    = (Raise (if int64 (UserCreate.age payload)
              then HTTPException 400 "User already exists"
              else OverflowError), s')
    /\ committed s' = db
    /\ respond 201 (row (add_user foreign_keys payload)) db
       = (if int64 (UserCreate.age payload)
          then {| status_code := 400; content_ := Detail "User already exists" |}
          else {| status_code := 500; content_ := InternalServerError |}, db).
Proof.
  intros Hin Hdup.
  assert (H : existsb (fun r' => str_eqb (Users.email r') (UserCreate.email payload))
                      (users db)
              || existsb (fun r' => str_eqb (Users.student_id r')
                                            (UserCreate.student_id payload))
                         (users db) = true).
  { apply orb_true_iff. destruct Hdup as [H|H]; [left|right];
      apply existsb_exists; exists r; (split; [exact Hin|]); apply str_eqb_eq, H. }
  unfold add_user. session_ops. cbn.
  unfold insert_into_users. cbn.
  rewrite <- orb_assoc, H, orb_true_r.
  destruct (int64 (UserCreate.age payload)); cbn;
    (eexists; split; [reflexivity|]; split; reflexivity).
Qed.

(** C4: deleting an existing user succeeds (204), and afterwards the
    user is gone and the projects of the store are exactly the former
    ones owned by somebody else: no project of the deleted user remains. *)
Theorem delete_user_cascades (db : Database) (users_id : Z) (r : Users.row) :
  find_user db users_id = Some r ->
  exists s',
    delete_user foreign_keys users_id (open_session db) = (Ok tt, s')
    /\ find_user (committed s') users_id = None
    /\ (forall p, In p (projects (committed s')) <->
                  In p (projects db) /\ Projects.owner_id p <> users_id)
    /\ respond 204 (delete_user foreign_keys users_id;; mret Empty) db
       = ({| status_code := 204; content_ := Empty |}, committed s').
Proof.
  intros H. pose proof (find_user_id _ _ _ H) as Hid. subst users_id.
  unfold delete_user. session_ops. cbn. rewrite H. cbn.
  eexists. split; [reflexivity|]. cbn. split; [|split].
  - unfold find_user. cbn.
    rewrite <- (find_filter_out (fun r0 => Users.id r0 =? Users.id r) (users db)).
    f_equal. apply filter_ext. intros a. f_equal.
    apply eq_true_iff_eq. rewrite bool_decide_eq_true, Z.eqb_eq. split; congruence.
  - intros p. rewrite filter_In, negb_true_iff, bool_decide_eq_false.
    split; intros [? ?]; split; congruence.
  - reflexivity.
Qed.

End HandlerFacts.

(** ** The schemas *)

Lemma In_errors_of {A} (loc loc' e : string) (r : checked A) :
  In (loc, e) (errors_of loc' r) <-> loc = loc' /\ r = inr e.
Proof.
  destruct r as [a|e']; simpl.
  - split; [tauto|]. intros [_ H]. discriminate H.
  - split.
    + intros [H|[]]. injection H as -> ->. auto.
    + intros [-> H]. injection H as ->. auto.
Qed.

Section SchemaFacts.
Variable Nd : N -> bool.
Variable sai : str -> option Z.
Variable ve : str -> option str.

Lemma rejects_UserCreate (b : body) (loc : string) :
  rejects_field (validate_UserCreate Nd sai ve b) loc <->
  exists e,
    (loc = "student_id"
     /\ required (constrained_str Nd StudentID) (b !! "student_id") = inr e)
    \/ (loc = "name" /\ required (constrained_str Nd NameStr) (b !! "name") = inr e)
    \/ (loc = "email" /\ required (EmailStr ve) (b !! "email") = inr e)
    \/ (loc = "age" /\ required (constrained_int sai age_gt_18) (b !! "age") = inr e).
Proof.
  unfold validate_UserCreate.
  assert (forall errors, (exists e, In (loc, e) errors) <->
                         rejects_field (@Invalid UserCreate.t errors) loc) as Hinv
      by reflexivity.
  destruct (required (constrained_str Nd StudentID) (b !! "student_id")) as [s|e1] eqn:E1,
           (required (constrained_str Nd NameStr) (b !! "name")) as [n|e2] eqn:E2,
           (required (EmailStr ve) (b !! "email")) as [m|e3] eqn:E3,
           (required (constrained_int sai age_gt_18) (b !! "age")) as [a|e4] eqn:E4;
    cbn [rejects_field];
    try (rewrite <- Hinv);
    (split; [intros H|intros [e H]]);
    repeat match goal with
           | H : False |- _ => destruct H
           | H : exists _, _ |- _ => destruct H
           | H : In _ (_ ++ _) |- _ => apply in_app_or in H
           | H : _ \/ _ |- _ => destruct H
           | H : _ /\ _ |- _ => destruct H
           | H : In _ (errors_of _ _) |- _ => apply In_errors_of in H
           | H : inl _ = inr _ |- _ => discriminate H
           | H : inr _ = inr _ |- _ => injection H as H
           end; subst;
    try solve [ eexists; eauto 6 ];
    try solve [ eexists; simpl; eauto 6 ].
Qed.

Lemma StudentID_field (v : option value) :
  (exists s', required (constrained_str Nd StudentID) v = inl s') <->
  exists s, v = Some (PyStr s) /\ S_followed_by_7_decimal_digits Nd s.
Proof.
  destruct v as [[| |s]|]; cbn.
  1,2,4: split; [intros [? H]; discriminate H | intros (? & H & _); discriminate H].
  unfold check_str. cbn.
  destruct (is_match Nd StudentID_pattern s) eqn:E.
  - apply is_match_StudentID_pattern in E. split; eauto.
  - split.
    + intros [? H]. discriminate H.
    + intros (s0 & H & Hs). injection H as ->.
      apply is_match_StudentID_pattern in Hs. congruence.
Qed.

(** C6: in a user-create payload the student_id is accepted exactly
    when it is a string made of the letter S followed by exactly 7
    decimal digits of Unicode; a string of ASCII is accepted exactly when
    it is the letter S followed by exactly 7 digits 0 to 9; "S123" is
    rejected and "S1234567" is accepted. *)
Theorem StudentID_S_and_7_digits :
  (forall b : body,
      ~ rejects_field (validate_UserCreate Nd sai ve b) "student_id"
      <-> exists s, b !! "student_id" = Some (PyStr s)
                    /\ S_followed_by_7_decimal_digits Nd s)
  /\ (forall (b : body) (s : str),
         ascii_str s ->
         ~ rejects_field (validate_UserCreate Nd sai ve (<["student_id" := PyStr s]> b))
             "student_id"
         <-> S_followed_by_7_digits s)
  /\ (forall b : body,
         rejects_field
           (validate_UserCreate Nd sai ve (<["student_id" := PyStr (u "S123")]> b))
           "student_id")
  /\ (forall b : body,
         ~ rejects_field
             (validate_UserCreate Nd sai ve (<["student_id" := PyStr (u "S1234567")]> b))
             "student_id").
Proof.
  assert (Hiff : forall b : body,
      ~ rejects_field (validate_UserCreate Nd sai ve b) "student_id"
      <-> exists s, b !! "student_id" = Some (PyStr s)
                    /\ S_followed_by_7_decimal_digits Nd s).
  { intros b. rewrite rejects_UserCreate, <- StudentID_field. split.
    - intros Hn.
      destruct (required (constrained_str Nd StudentID) (b !! "student_id")) as [s|e] eqn:E;
        [eauto|].
      exfalso. apply Hn. exists e. left. auto.
    - intros [s Hs] [e [[_ He]|[[Hl _]|[[Hl _]|[Hl _]]]]]; try discriminate Hl.
      congruence. }
  split; [exact Hiff|]. split; [|split].
  - intros b s Ha. rewrite Hiff, lookup_insert_eq.
    rewrite <- (S_followed_by_7_digits_ascii Nd s Ha). split.
    + intros (s0 & [= <-] & Hs). exact Hs.
    + intros Hs. exists s. split; [reflexivity|exact Hs].
  - intros b. apply rejects_UserCreate. exists "string_pattern_mismatch". left.
    split; [reflexivity|]. rewrite lookup_insert_eq. reflexivity.
  - intros b. apply Hiff. exists (u "S1234567"). split; [apply lookup_insert_eq|].
    exists (u "1234567"). split; [reflexivity|]. split; [reflexivity|].
    repeat (constructor; [left; cbn; lia|]). constructor.
Qed.



Lemma validate_age_only (a : Z) :
  18 <= a <= 150 ->
  validate_UserUpdate Nd sai ve {["age" := PyInt a]} = Valid (age_only a).
Proof.
  intros H. unfold validate_UserUpdate.
  rewrite lookup_singleton_eq, !lookup_singleton_ne by discriminate. cbn.
  unfold check_int. cbn.
  destruct (Z.ltb_spec a 18); [lia|].
  destruct (Z.ltb_spec 150 a); [lia|]. reflexivity.
Qed.
End SchemaFacts.

(** ** Requests through the route table *)

Section Requests.
Variable Nd : N -> bool.
Variable sai : str -> option Z.
Variable ve : str -> option str.
Variable foreign_keys : bool.

Lemma handle_POST_users (b : body) (db : Database) :
  handle Nd sai ve foreign_keys (POST_users b) db
  = match validate_UserCreate Nd sai ve b with
    | Valid payload => respond 201 (row (add_user foreign_keys payload)) db
    | Invalid errors =>
        ({| status_code := 422; content_ := ValidationErrors errors |}, db)
    end.
Proof.
  unfold handle, routes. repeat skip_route. take_route. call_endpoint.
  unfold POST_users. cbn [json].
  destruct (validate_UserCreate Nd sai ve b); reflexivity.
Qed.

Lemma handle_GET_user_projects (c : N) (cs : str) (users_id : Z) (db : Database) :
  sai (c :: cs) = Some users_id ->
  handle Nd sai ve foreign_keys (GET_user_projects (c :: cs)) db
  = respond 200 (rows (get_user_projects users_id)) db.
Proof.
  intros H. unfold handle, routes. repeat skip_route. take_route. call_endpoint.
  rewrite lookup_insert_eq, H. reflexivity.
Qed.

Lemma handle_PATCH_user (c : N) (cs : str) (users_id : Z) (b : body)
      (payload : UserUpdate.t) (db : Database) :
  sai (c :: cs) = Some users_id ->
  validate_UserUpdate Nd sai ve b = Valid payload ->
  handle Nd sai ve foreign_keys (PATCH_user (c :: cs) b) db
  = respond 200 (row (patch_user foreign_keys users_id payload)) db.
Proof.
  intros H Hb. unfold handle, routes. repeat skip_route. take_route. call_endpoint.
  unfold PATCH_user. cbn [json].
  rewrite lookup_insert_eq, H, Hb. reflexivity.
Qed.


(** The path parameter of the nested create route plays no part: the
    owner is the query parameter [users_id]. *)
Lemma handle_POST_user_projects (c : N) (cs : str) (q : gmap string str) (b : body)
      (db : Database) :
  handle Nd sai ve foreign_keys (POST_user_projects (c :: cs) q b) db
  = match both (match q !! "users_id" with
                | Some v => match sai v with
                            | Some z => Valid z
                            | None => Invalid [("users_id", "int_parsing")]
                            end
                | None => Invalid [("users_id", "missing")]
                end)
               (validate_ProjectCreateForUser Nd b) with
    | Valid (users_id, project) =>
        respond 201 (row (create_user_project foreign_keys users_id project)) db
    | Invalid errors =>
        ({| status_code := 422; content_ := ValidationErrors errors |}, db)
    end.
Proof.
  unfold handle, routes. repeat skip_route. take_route. call_endpoint.
  unfold POST_user_projects. cbn [query json].
  destruct (q !! "users_id") as [v|]; [destruct (sai v)|];
    destruct (validate_ProjectCreateForUser Nd b); reflexivity.
Qed.
End Requests.

(** ** The contract of the API *)

Section Contract.
Variable Nd : N -> bool.
Variable sai : str -> option Z.
Variable ve : str -> option str.
Variable foreign_keys : bool.

(** C5: a user-create payload with age 18 is rejected on its age, and
    the request is answered 422 with the datastore untouched, no handler
    having run; with age 19 the age is accepted, and once the other three
    fields pass, the handler runs on the payload. *)
Theorem UserCreate_age_must_exceed_18 (b : body) (db : Database) :
  (b !! "age" = Some (PyInt 18) ->
   rejects_field (validate_UserCreate Nd sai ve b) "age"
   /\ exists errors,
       handle Nd sai ve foreign_keys (POST_users b) db
       = ({| status_code := 422; content_ := ValidationErrors errors |}, db))
  /\ (b !! "age" = Some (PyInt 19) ->
      ~ rejects_field (validate_UserCreate Nd sai ve b) "age"
      /\ forall s n e,
          required (constrained_str Nd StudentID) (b !! "student_id") = inl s ->
          required (constrained_str Nd NameStr) (b !! "name") = inl n ->
          required (EmailStr ve) (b !! "email") = inl e ->
          handle Nd sai ve foreign_keys (POST_users b) db
          = respond 201
              (row (add_user foreign_keys {| UserCreate.student_id := s; UserCreate.name := n;
                                   UserCreate.email := e; UserCreate.age := 19 |}))
              db).
Proof.
  split; intros H.
  - assert (Hr : rejects_field (validate_UserCreate Nd sai ve b) "age").
    { apply rejects_UserCreate. exists "greater_than". do 3 right.
      split; [reflexivity|]. rewrite H. reflexivity. }
    split; [exact Hr|]. rewrite handle_POST_users.
    destruct (validate_UserCreate Nd sai ve b) as [p|errors]; [destruct Hr|].
    exists errors. reflexivity.
  - split.
    + intros Hr. apply rejects_UserCreate in Hr
        as [e [[Hl _]|[[Hl _]|[[Hl _]|[_ He]]]]]; try discriminate Hl.
      rewrite H in He. discriminate He.
    + intros s n e Hs Hn He. rewrite handle_POST_users.
      unfold validate_UserCreate. rewrite Hs, Hn, He, H. reflexivity.
Qed.



(** C9: for every user id within 64 bits the relationship fetch answers
    200 with the projects whose owner_id is that id, and never checks
    that the user exists: with an id no user has, in a store where every
    project has its owner, the list is empty. *)
Theorem get_user_projects_unknown_id_empty (db : Database) (users_id : Z)
        (c : N) (cs : str) :
  sai (c :: cs) = Some users_id ->
  int64 users_id = true ->
  let owned := List.filter (fun p => Projects.owner_id p =? users_id) (projects db) in
  get_user_projects users_id (open_session db)
  = (Ok (project_instances owned), open_session db)
  /\ (forall p, In p owned <-> In p (projects db) /\ Projects.owner_id p = users_id)
  /\ handle Nd sai ve foreign_keys (GET_user_projects (c :: cs)) db
     = ({| status_code := 200; content_ := Rows (project_instances owned) |}, db)
  /\ (referential_integrity db -> find_user db users_id = None -> owned = []).
Proof.
  intros H H64 owned.
  assert (Hrun : get_user_projects users_id (open_session db)
                 = (Ok (project_instances owned), open_session db)).
  { unfold get_user_projects. session_ops. cbn. rewrite H64. reflexivity. }
  split; [exact Hrun|]. split; [|split].
  - intros p. unfold owned. rewrite filter_In, Z.eqb_eq. reflexivity.
  - rewrite (handle_GET_user_projects Nd sai ve foreign_keys c cs users_id db H).
    unfold respond, rows, mbind, M_bind. rewrite Hrun. reflexivity.
  - intros Hri Hnone. destruct owned as [|p l] eqn:E; [reflexivity|]. exfalso.
    assert (Hin : In p owned) by (rewrite E; left; reflexivity).
    unfold owned in Hin. apply filter_In in Hin as [Hin Ho]. apply Z.eqb_eq in Ho.
    destruct (Hri p Hin) as [r Hr]. congruence.
Qed.

(** C10: the update schema accepts age 18, and a PATCH of an existing
    user with it succeeds and stores 18: the rule of creation, age above
    18, no longer holds of the users of the store. *)
Theorem patch_user_accepts_age_18 (db : Database) (users_id : Z) (r : Users.row)
        (c : N) (cs : str) :
  find_user db users_id = Some r ->
  sai (c :: cs) = Some users_id ->
  validate_UserUpdate Nd sai ve {["age" := PyInt 18]} = Valid (age_only 18)
  /\ exists s',
      patch_user foreign_keys users_id (age_only 18) (open_session db)
      = (Ok (User (UserDB.of_row (with_age r 18))), s')
      /\ handle Nd sai ve foreign_keys (PATCH_user (c :: cs) {["age" := PyInt 18]}) db
         = ({| status_code := 200;
               content_ := Row (User (UserDB.of_row (with_age r 18))) |},
            committed s')
      /\ find_user (committed s') users_id = Some (with_age r 18)
      /\ ~ Forall (fun r' => 18 < Users.age r') (users (committed s')).
Proof.
  intros H Hs.
  assert (Hv : validate_UserUpdate Nd sai ve {["age" := PyInt 18]} = Valid (age_only 18))
    by (apply validate_age_only; lia).
  split; [exact Hv|].
  destruct (patch_user_age foreign_keys db users_id r 18 H eq_refl) as (s' & Hrun & Hfind).
  exists s'. split; [exact Hrun|]. split; [|split; [exact Hfind|]].
  - rewrite (handle_PATCH_user Nd sai ve foreign_keys c cs users_id _ _ db Hs Hv).
    unfold respond, row, mbind, M_bind. rewrite Hrun. reflexivity.
  - intros Hall. unfold find_user in Hfind. apply find_some in Hfind as [Hin _].
    apply (proj1 (List.Forall_forall _ _)) with (x := with_age r 18) in Hall;
      [cbn in Hall; lia|exact Hin].
Qed.
End Contract.

(** ** The handlers at work on a store *)

(** C3: the nested create route should check the user of the request path
    and create a project owned by that path id.  The handler's parameter
    is [users_id] while the path declares [user_id], so the owner is read
    from the query string: with [?users_id=2] the project goes to user 2
    under the path of user 1, and under the path of a user that does not
    exist; without it the request is refused, 422. *)
Theorem nested_create_takes_owner_from_query :
  handle ascii_only decimal any_address true
         (POST_user_projects (u "1") {["users_id" := u "2"]} parser_body) sample_db
  = ({| status_code := 201;
        content_ := Row (Project (ProjectDB.of_row (parser_of 2))) |},
     {| users := [ada; bob]; projects := [engine; parser_of 2]; courses := [algebra] |})
  /\ handle ascii_only decimal any_address true
            (POST_user_projects (u "7") {["users_id" := u "2"]} parser_body) sample_db
     = ({| status_code := 201;
           content_ := Row (Project (ProjectDB.of_row (parser_of 2))) |},
        {| users := [ada; bob]; projects := [engine; parser_of 2]; courses := [algebra] |})
  /\ handle ascii_only decimal any_address true
            (POST_user_projects (u "1") ∅ parser_body) sample_db
     = ({| status_code := 422; content_ := ValidationErrors [("users_id", "missing")] |},
        sample_db).
Proof.
  split; [|split].
  - vm_compute. reflexivity.
  - vm_compute. reflexivity.
  - vm_compute. reflexivity.
Qed.

Lemma create_course_duplicate_code_witness :
  In algebra (courses sample_db)
  /\ Courses.code algebra = CourseCreate.code algebra_again
  /\ exists s',
      create_course true algebra_again (open_session sample_db)
      = (Raise InvalidRequestError, s')
      /\ committed s' = sample_db
      /\ respond 201 (row (create_course true algebra_again)) sample_db
         = ({| status_code := 500; content_ := InternalServerError |}, sample_db).
Proof.
  split; [left; reflexivity|]. split; [reflexivity|].
  apply (create_course_duplicate_code true sample_db algebra_again algebra);
    [left; reflexivity|reflexivity].
Defined.

(** C2, as stated, fails: a user-create request with the email of a
    stored user and an age of 2^63 passes validation and ends in a 500,
    not in the conflict response. *)
Lemma add_user_duplicate_age_beyond_64_bits :
  In ada (users sample_db)
  /\ Users.email ada = UserCreate.email ada_again_beyond
  /\ validate_UserCreate ascii_only decimal any_address ada_again_beyond_body
     = Valid ada_again_beyond
  /\ handle ascii_only decimal any_address true (POST_users ada_again_beyond_body)
            sample_db
     = ({| status_code := 500; content_ := InternalServerError |}, sample_db)
  /\ respond 201 (row (add_user true ada_again_beyond)) sample_db
     <> ({| status_code := 400; content_ := Detail "User already exists" |}, sample_db).
Proof.
  split; [left; reflexivity|]. split; [reflexivity|].
  split; [vm_compute; reflexivity|]. split; [vm_compute; reflexivity|].
  vm_compute. discriminate.
Qed.

Lemma add_user_duplicate_witness :
  In ada (users sample_db)
  /\ Users.email ada = UserCreate.email ada_again
  /\ exists s',
      add_user true ada_again (open_session sample_db)
      = (Raise (HTTPException 400 "User already exists"), s')
      /\ committed s' = sample_db
      /\ respond 201 (row (add_user true ada_again)) sample_db
         = ({| status_code := 400; content_ := Detail "User already exists" |}, sample_db).
Proof.
  split; [left; reflexivity|]. split; [reflexivity|].
  apply (add_user_duplicate true sample_db ada_again ada);
    [left; reflexivity|left; reflexivity].
Defined.

Lemma delete_user_cascades_witness :
  find_user sample_db 1 = Some ada
  /\ exists s',
      delete_user true 1 (open_session sample_db) = (Ok tt, s')
      /\ find_user (committed s') 1 = None
      /\ (forall p, In p (projects (committed s')) <->
                    In p (projects sample_db) /\ Projects.owner_id p <> 1)
      /\ respond 204 (delete_user true 1;; mret Empty) sample_db
         = ({| status_code := 204; content_ := Empty |}, committed s').
Proof.
  split; [reflexivity|].
  apply (delete_user_cascades true sample_db 1 ada). reflexivity.
Defined.

Lemma UserCreate_age_must_exceed_18_witness :
  (body_of_age 18 !! "age" = Some (PyInt 18)
   /\ rejects_field (validate_UserCreate ascii_only decimal any_address (body_of_age 18))
                    "age")
  /\ (body_of_age 19 !! "age" = Some (PyInt 19)
      /\ ~ rejects_field (validate_UserCreate ascii_only decimal any_address
                                              (body_of_age 19)) "age").
Proof.
  split.
  - split; [reflexivity|].
    destruct (UserCreate_age_must_exceed_18 ascii_only decimal any_address true
                (body_of_age 18) empty_db) as [H _].
    apply H. reflexivity.
  - split; [reflexivity|].
    destruct (UserCreate_age_must_exceed_18 ascii_only decimal any_address true
                (body_of_age 19) empty_db) as [_ H].
    apply H. reflexivity.
Defined.

(** C6, as stated, fails: the letter S followed by seven Arabic-Indic
    digits is accepted, whatever else the engine takes for a digit, and
    none of the seven is a digit 0 to 9. *)
Lemma StudentID_accepts_arabic_indic_digits :
  ~ rejects_field
      (validate_UserCreate ascii_only decimal any_address
         (<["student_id" := PyStr S_arabic_indic]> (body_of_age 19)))
      "student_id"
  /\ (exists p, validate_UserCreate ascii_only decimal any_address
                  (<["student_id" := PyStr S_arabic_indic]> (body_of_age 19))
                = Valid p
                /\ UserCreate.student_id p = S_arabic_indic)
  /\ ~ S_followed_by_7_digits S_arabic_indic.
Proof.
  split; [vm_compute; tauto|]. split.
  - eexists. split; vm_compute; reflexivity.
  - intros (ds & Hs & _ & Hd). injection Hs as <-.
    apply Forall_cons_1 in Hd as [Hd _]. lia.
Qed.

Lemma StudentID_S_and_7_digits_witness :
  ascii_str (u "S1234567")
  /\ S_followed_by_7_digits (u "S1234567")
  /\ ~ rejects_field
        (validate_UserCreate ascii_only decimal any_address
           (<["student_id" := PyStr (u "S1234567")]> (body_of_age 19)))
        "student_id".
Proof.
  assert (Ha : ascii_str (u "S1234567")) by (repeat constructor).
  split; [exact Ha|].
  destruct (StudentID_S_and_7_digits ascii_only decimal any_address) as (_ & H & _).
  assert (Hs : S_followed_by_7_digits (u "S1234567")).
  { exists (u "1234567"). split; [reflexivity|]. split; [reflexivity|].
    repeat (constructor; [cbn; lia|]). constructor. }
  split; [exact Hs|]. apply (H (body_of_age 19) (u "S1234567") Ha). exact Hs.
Defined.





Lemma sample_db_integrity : referential_integrity sample_db.
Proof. intros p [<-|[]]. exists ada. reflexivity. Qed.

(** C9, as stated, fails: a user id of 2^63 is refused by the driver,
    and the request ends in a 500; and where foreign keys are not
    checked, a PUT gives a project an owner no user has, after which the
    id of no user gets a list that is not empty. *)
Lemma get_user_projects_unknown_id_not_empty :
  handle ascii_only decimal any_address true
         (GET_user_projects (u "9223372036854775808")) sample_db
  = ({| status_code := 500; content_ := InternalServerError |}, sample_db)
  /\ exists s',
      update_project false 1 orphaning (open_session sample_db)
      = (Ok (Project (ProjectDB.of_row (replaced 1 orphaning))), s')
      /\ find_user (committed s') 9 = None
      /\ handle ascii_only decimal any_address false (GET_user_projects (u "9"))
                (committed s')
         = ({| status_code := 200;
               content_ := Rows [Project (ProjectDB.of_row (replaced 1 orphaning))] |},
            committed s').
Proof.
  split; [vm_compute; reflexivity|].
  eexists. split; [vm_compute; reflexivity|].
  split; vm_compute; reflexivity.
Qed.

Lemma get_user_projects_unknown_id_empty_witness :
  decimal (u "5") = Some 5
  /\ int64 5 = true
  /\ referential_integrity sample_db
  /\ find_user sample_db 5 = None
  /\ get_user_projects 5 (open_session sample_db) = (Ok [], open_session sample_db)
  /\ handle ascii_only decimal any_address true (GET_user_projects (u "5")) sample_db
     = ({| status_code := 200; content_ := Rows [] |}, sample_db).
Proof.
  split; [reflexivity|]. split; [reflexivity|].
  split; [exact sample_db_integrity|]. split; [reflexivity|].
  destruct (get_user_projects_unknown_id_empty ascii_only decimal any_address true
              sample_db 5 53%N [] eq_refl eq_refl) as (Hrun & _ & Hreq & Hempty).
  rewrite (Hempty sample_db_integrity eq_refl) in Hrun, Hreq.
  split; [exact Hrun|exact Hreq].
Defined.

Lemma patch_user_accepts_age_18_witness :
  find_user sample_db 2 = Some bob
  /\ decimal (u "2") = Some 2
  /\ exists s',
      patch_user true 2 (age_only 18) (open_session sample_db)
      = (Ok (User (UserDB.of_row (with_age bob 18))), s')
      /\ find_user (committed s') 2 = Some (with_age bob 18).
Proof.
  split; [reflexivity|]. split; [reflexivity|].
  destruct (patch_user_accepts_age_18 ascii_only decimal any_address true
              sample_db 2 bob 50%N [] eq_refl eq_refl) as (_ & s' & Hrun & _ & Hfind & _).
  exists s'. split; [exact Hrun|exact Hfind].
Defined.

(** * Further properties of the handlers *)

(** ** Lists and tables *)

Lemma existsb_none {A} (p : A -> bool) (l : list A) :
  (forall x, In x l -> p x = false) -> existsb p l = false.
Proof.
  intros H. destruct (existsb p l) eqn:E; [|reflexivity].
  apply existsb_exists in E as (x & Hin & Hx). rewrite (H x Hin) in Hx. discriminate.
Qed.

Lemma find_fresh {A} (key : A -> Z) (l : list A) :
  List.find (fun r => key r =? next_id (map key l)) l = None.
Proof.
  destruct (List.find _ l) as [r|] eqn:E; [|reflexivity].
  apply find_some in E as [Hin Hr]. apply Z.eqb_eq in Hr.
  pose proof (next_id_above _ _ (in_map key _ _ Hin)). lia.
Qed.

Lemma changed_and_taken (old new : str) (l : list Users.row) (f : Users.row -> str) :
  old = new \/ (forall r', In r' l -> f r' <> new) ->
  negb (str_eqb old new) && existsb (fun r' => str_eqb (f r') new) l = false.
Proof.
  intros [->|H].
  - rewrite str_eqb_refl. reflexivity.
  - rewrite existsb_none; [apply andb_false_r|].
    intros x Hin. apply bool_decide_eq_false, H, Hin.
Qed.

Lemma head_filter {A} (p : A -> bool) (l : list A) :
  head (List.filter p l) = List.find p l.
Proof.
  induction l as [|x l IH]; simpl; [reflexivity|]. destruct (p x); [reflexivity|exact IH].
Qed.

Lemma filter_none {A} (p : A -> bool) (l : list A) :
  (forall x, In x l -> p x = false) -> List.filter p l = [].
Proof.
  induction l as [|x l IH]; simpl; intros H; [reflexivity|].
  rewrite (H x) by auto. apply IH. auto.
Qed.

Lemma filter_unique {A} (key : A -> Z) (pk : Z) (l : list A) (r : A) :
  List.NoDup (map key l) ->
  List.find (fun x => key x =? pk) l = Some r ->
  List.filter (fun x => key x =? pk) l = [r].
Proof.
  induction l as [|x l IH]; simpl; intros Hnd H; [discriminate|].
  inversion Hnd as [|? ? Hnotin Hnd']; subst.
  destruct (key x =? pk) eqn:E.
  - injection H as ->. f_equal. apply filter_none. intros y Hy.
    apply Z.eqb_neq. intros Hk. apply Z.eqb_eq in E. apply Hnotin.
    rewrite E, <- Hk. apply in_map, Hy.
  - apply IH; assumption.
Qed.

Lemma head_owner (db : Database) (k : Z) :
  head (user_instances
          (List.filter (fun r0 => bool_decide (Some (Users.id r0) = Some k)) (users db)))
  = option_map (fun o => User (UserDB.of_row o)) (find_user db k).
Proof.
  unfold find_user. rewrite <- head_filter.
  rewrite (filter_ext _ (fun r0 => Users.id r0 =? k)).
  - destruct (List.filter _ (users db)); reflexivity.
  - intros a. apply eq_true_iff_eq.
    rewrite bool_decide_eq_true, Z.eqb_eq. split; congruence.
Qed.

Section Lists.
Context {A B : Type} (f : A -> B).

Lemma NoDup_map_snoc (l : list A) (x : A) :
  List.NoDup (map f l) -> ~ In (f x) (map f l) -> List.NoDup (map f (l ++ [x])).
Proof.
  induction l as [|y l IH]; cbn; intros Hnd Hx.
  - constructor; [tauto|constructor].
  - inversion Hnd as [|? ? Hy Hnd']; subst. constructor.
    + rewrite map_app, in_app_iff. cbn. intros [H|[H|[]]]; [tauto|].
      apply Hx. left. symmetry. exact H.
    + apply IH; [exact Hnd'|]. intros H. apply Hx. right. exact H.
Qed.

Lemma NoDup_map_filter (p : A -> bool) (l : list A) :
  List.NoDup (map f l) -> List.NoDup (map f (List.filter p l)).
Proof.
  induction l as [|y l IH]; cbn; intros Hnd; [constructor|].
  inversion Hnd as [|? ? Hy Hnd']; subst.
  destruct (p y); cbn; [constructor|]; auto.
  intros H. apply Hy. apply in_map_iff in H as (z & Hz & Hin).
  apply filter_In in Hin as [Hin _]. rewrite <- Hz. apply in_map, Hin.
Qed.

Variable key : A -> Z.

Lemma replace_absent (pk : Z) (g : A) (l : list A) :
  ~ In pk (map key l) -> map (fun x => if key x =? pk then g else x) l = l.
Proof.
  induction l as [|y l IH]; cbn; intros H; [reflexivity|].
  destruct (Z.eqb_spec (key y) pk) as [E|E]; [tauto|]. f_equal. apply IH. tauto.
Qed.

Lemma NoDup_map_replace (pk : Z) (g old : A) (l : list A) :
  List.NoDup (map key l) ->
  List.find (fun x => key x =? pk) l = Some old ->
  f g = f old \/ ~ In (f g) (map f l) ->
  List.NoDup (map f l) ->
  List.NoDup (map f (map (fun x => if key x =? pk then g else x) l)).
Proof.
  induction l as [|y l IH]; cbn; intros Hk Hfind Hg Hnd; [discriminate|].
  inversion Hk as [|? ? Hyk Hk']; subst. inversion Hnd as [|? ? Hyf Hnd']; subst.
  destruct (Z.eqb_spec (key y) pk) as [E|E].
  - injection Hfind as ->. subst pk. rewrite replace_absent by exact Hyk.
    constructor; [|exact Hnd'].
    destruct Hg as [Hg|Hg]; [rewrite Hg; exact Hyf|]. tauto.
  - constructor.
    + intros H. apply in_map_iff in H as (z & Hz & Hin).
      apply in_map_iff in Hin as (w & Hw & Hin).
      destruct (key w =? pk); subst z.
      * destruct Hg as [Hg|Hg].
        -- apply Hyf. rewrite <- Hz, Hg. apply in_map.
           apply find_some in Hfind. apply Hfind.
        -- apply Hg. left. symmetry. exact Hz.
      * apply Hyf. rewrite <- Hz. apply in_map, Hin.
    + apply IH; auto. destruct Hg as [Hg|Hg]; [left; exact Hg|right; tauto].
Qed.

End Lists.

Lemma map_key_replace {A} (key : A -> Z) (pk : Z) (g : A) (l : list A) :
  key g = pk -> map key (map (fun x => if key x =? pk then g else x) l) = map key l.
Proof.
  intros Hg. induction l as [|y l IH]; cbn; [reflexivity|]. rewrite IH. f_equal.
  destruct (Z.eqb_spec (key y) pk); congruence.
Qed.

Lemma not_taken_Z {A} (key : A -> Z) (k : Z) (l : list A) :
  existsb (fun r => key r =? k) l = false -> ~ In k (map key l).
Proof.
  intros H Hin. apply in_map_iff in Hin as (x & Hx & Hin).
  assert (existsb (fun r => key r =? k) l = true); [|congruence].
  apply existsb_exists. exists x. split; [exact Hin|]. apply Z.eqb_eq, Hx.
Qed.

Lemma not_taken_str {A} (key : A -> str) (k : str) (l : list A) :
  existsb (fun r => str_eqb (key r) k) l = false -> ~ In k (map key l).
Proof.
  intros H Hin. apply in_map_iff in Hin as (x & Hx & Hin).
  assert (existsb (fun r => str_eqb (key r) k) l = true); [|congruence].
  apply existsb_exists. exists x. split; [exact Hin|]. apply str_eqb_eq, Hx.
Qed.

Lemma find_app_some {A} (p : A -> bool) (l l' : list A) (x : A) :
  List.find p l = Some x -> List.find p (l ++ l') = Some x.
Proof.
  induction l as [|y l IH]; cbn; [discriminate|]. destruct (p y); auto.
Qed.

Lemma find_replace_ne {A} (key : A -> Z) (pk k : Z) (g : A) (l : list A) :
  key g = pk -> k <> pk ->
  List.find (fun x => key x =? k) (map (fun x => if key x =? pk then g else x) l)
  = List.find (fun x => key x =? k) l.
Proof.
  intros Hg Hk. induction l as [|y l IH]; cbn; [reflexivity|].
  destruct (Z.eqb_spec (key y) pk) as [E|E].
  - destruct (Z.eqb_spec (key g) k); [congruence|].
    destruct (Z.eqb_spec (key y) k); [congruence|]. exact IH.
  - destruct (key y =? k); [reflexivity|exact IH].
Qed.

Lemma find_filter_keep {A} (p q : A -> bool) (l : list A) :
  (forall x, p x = true -> q x = true) ->
  List.find p (List.filter q l) = List.find p l.
Proof.
  intros H. induction l as [|y l IH]; cbn; [reflexivity|].
  destruct (q y) eqn:Eq; cbn.
  - destruct (p y); [reflexivity|exact IH].
  - destruct (p y) eqn:Ep; [|exact IH]. rewrite (H y Ep) in Eq. discriminate.
Qed.

Lemma existsb_find_user (t : Database) (k : Z) :
  existsb (fun r => Users.id r =? k) (users t) = true ->
  exists r, find_user t k = Some r.
Proof.
  intros H. unfold find_user. destruct (List.find _ (users t)) as [r|] eqn:E; [eauto|].
  apply existsb_exists in H as (x & Hin & Hx).
  rewrite (find_none _ _ E x Hin) in Hx. discriminate.
Qed.

Lemma In_replace {A} (p : A -> bool) (g x : A) (l : list A) :
  In x (map (fun y => if p y then g else y) l) -> x = g \/ In x l.
Proof.
  intros H. apply in_map_iff in H as (y & Hy & Hin).
  destruct (p y); subst; auto.
Qed.

Lemma to_row_user_id (pk : Z) (o : UserDB.t) (r : Users.row) :
  UserDB.to_row pk o = Some r -> Users.id r = pk.
Proof.
  unfold UserDB.to_row.
  destruct (UserDB.name o), (UserDB.email o), (UserDB.age o), (UserDB.student_id o);
    intros H; inversion H; reflexivity.
Qed.

Lemma to_row_project_id (pk : Z) (o : ProjectDB.t) (r : Projects.row) :
  ProjectDB.to_row pk o = Some r -> Projects.id r = pk.
Proof.
  unfold ProjectDB.to_row.
  destruct (ProjectDB.name o), (ProjectDB.owner_id o); intros H; inversion H; reflexivity.
Qed.

Lemma to_row_course_id (pk : Z) (o : CourseDB.t) (r : Courses.row) :
  CourseDB.to_row pk o = Some r -> Courses.id r = pk.
Proof.
  unfold CourseDB.to_row.
  destruct (CourseDB.code o), (CourseDB.name o), (CourseDB.credits o);
    intros H; inversion H; reflexivity.
Qed.

Lemma unchanged_or_free (old new : str) {A} (f : A -> str) (l : list A) :
  negb (str_eqb old new) && existsb (fun r' => str_eqb (f r') new) l = false ->
  new = old \/ ~ In new (map f l).
Proof.
  intros H. apply andb_false_iff in H as [H|H].
  - left. apply negb_false_iff, str_eqb_eq in H. congruence.
  - right. apply not_taken_str, H.
Qed.

(** ** Creating, replacing, patching, deleting *)

Section MoreHandlerFacts.
Variable foreign_keys : bool.

(** X2: a user whose email and student_id are free and whose age is
    within 64 bits is stored under a key above every key of the table and
    returned with it; reading that key back gives the same user. *)
Theorem add_user_then_get_user (db : Database) (payload : UserCreate.t) :
  (forall r, In r (users db) ->
             Users.email r <> UserCreate.email payload
             /\ Users.student_id r <> UserCreate.student_id payload) ->
  int64 (UserCreate.age payload) = true ->
  exists s',
    add_user foreign_keys payload (open_session db)
    = (Ok (User (UserDB.of_row (created_user db payload))), s')
    /\ committed s' = {| users := users db ++ [created_user db payload];
                         projects := projects db; courses := courses db |}
    /\ (forall r, In r (users db) -> Users.id r < Users.id (created_user db payload))
    /\ fst (get_user (Users.id (created_user db payload)) (open_session (committed s')))
       = Ok (User (UserDB.of_row (created_user db payload))).
Proof.
  intros Hfree H64.
  assert (He : existsb (fun r' => str_eqb (Users.email r') (UserCreate.email payload))
                       (users db) = false).
  { apply existsb_none. intros r Hin. apply bool_decide_eq_false. apply (Hfree r Hin). }
  assert (Hs : existsb (fun r' => str_eqb (Users.student_id r')
                                          (UserCreate.student_id payload))
                       (users db) = false).
  { apply existsb_none. intros r Hin. apply bool_decide_eq_false. apply (Hfree r Hin). }
  unfold add_user. session_ops. cbn. unfold insert_into_users. cbn.
  rewrite H64, (next_id_fresh Users.id), He, Hs. cbn.
  try unfold find_user. cbn.
  erewrite find_snoc; [| apply find_fresh | cbn; lia].
  cbn. eexists. split; [reflexivity|]. cbn. split; [reflexivity|]. split.
  - intros r Hin. apply next_id_above, in_map, Hin.
  - unfold get_user. session_ops. cbn. unfold find_user. cbn.
    erewrite find_snoc; [| apply find_fresh | cbn; lia]. reflexivity.
Qed.

(** X3: when no user has the owner_id of the payload, the flat project
    create stores nothing and answers 404 "User not found", or 500 for an
    owner_id beyond 64 bits, which the driver refuses; otherwise it
    appends the project, owned by that user, under a generated key. *)
Theorem create_project_checks_owner (db : Database) (project : ProjectCreate.t) :
  (find_user db (ProjectCreate.owner_id project) = None ->
   respond 201 (row (create_project foreign_keys project)) db
   = (if int64 (ProjectCreate.owner_id project)
      then {| status_code := 404; content_ := Detail "User not found" |}
      else {| status_code := 500; content_ := InternalServerError |}, db))
  /\ (forall o, find_user db (ProjectCreate.owner_id project) = Some o ->
        let r := created_project db (ProjectCreate.name project)
                                 (ProjectCreate.description project)
                                 (ProjectCreate.owner_id project) in
        respond 201 (row (create_project foreign_keys project)) db
        = ({| status_code := 201; content_ := Row (Project (ProjectDB.of_row r)) |},
           {| users := users db; projects := projects db ++ [r];
              courses := courses db |})).
Proof.
  split.
  - intros H. unfold create_project. session_ops. cbn. rewrite H.
    destruct (int64 _); reflexivity.
  - intros o H r. unfold create_project. session_ops. cbn. rewrite H. cbn.
    rewrite (find_user_id _ _ _ H), H, bool_decide_eq_true_2 by reflexivity. cbn.
    unfold insert_into_projects. cbn. rewrite ?store_str_of_str.
    rewrite (next_id_fresh Projects.id), (find_user_exists _ _ _ H), andb_false_r. cbn.
    unfold find_project. cbn.
    erewrite find_snoc; [| apply find_fresh | cbn; lia]. reflexivity.
Qed.

(** X4: for a [users_id] no user has, the handler of the nested create
    stores nothing and answers 404 "User not found", or 500 for a
    [users_id] beyond 64 bits, which the driver refuses; otherwise the new
    project is owned by [users_id]. *)
Theorem create_user_project_checks_user (db : Database) (users_id : Z)
        (project : ProjectCreateForUser.t) :
  (find_user db users_id = None ->
   respond 201 (row (create_user_project foreign_keys users_id project)) db
   = (if int64 users_id
      then {| status_code := 404; content_ := Detail "User not found" |}
      else {| status_code := 500; content_ := InternalServerError |}, db))
  /\ (forall o, find_user db users_id = Some o ->
        let r := created_project db (ProjectCreateForUser.name project)
                                 (ProjectCreateForUser.description project) users_id in
        respond 201 (row (create_user_project foreign_keys users_id project)) db
        = ({| status_code := 201; content_ := Row (Project (ProjectDB.of_row r)) |},
           {| users := users db; projects := projects db ++ [r];
              courses := courses db |})).
Proof.
  split.
  - intros H. unfold create_user_project. session_ops. cbn. rewrite H.
    destruct (int64 _); reflexivity.
  - intros o H r. unfold create_user_project. session_ops. cbn. rewrite H. cbn.
    rewrite (find_user_id _ _ _ H), H, bool_decide_eq_true_2 by reflexivity. cbn.
    unfold insert_into_projects. cbn. rewrite ?store_str_of_str.
    rewrite (next_id_fresh Projects.id), (find_user_exists _ _ _ H), andb_false_r. cbn.
    unfold find_project. cbn.
    erewrite find_snoc; [| apply find_fresh | cbn; lia]. reflexivity.
Qed.

(** X5: reading, replacing, patching or deleting a user under a key no
    user has answers 404 "User not found"; replacing or patching a missing
    project answers 404 "Project not found".  For a key beyond 64 bits,
    which the driver refuses, the answer is 500 instead.  The datastore
    stays as it is. *)
Theorem missing_row_is_404 (db : Database) (pk : Z) :
  (find_user db pk = None ->
   let not_found :=
     (if int64 pk then {| status_code := 404; content_ := Detail "User not found" |}
      else {| status_code := 500; content_ := InternalServerError |}, db) in
   respond 200 (row (get_user pk)) db = not_found
   /\ (forall payload, respond 200 (row (update_user foreign_keys pk payload)) db = not_found)
   /\ (forall payload, respond 200 (row (patch_user foreign_keys pk payload)) db = not_found)
   /\ respond 204 (delete_user foreign_keys pk;; mret Empty) db = not_found)
  /\ (find_project db pk = None ->
      let not_found :=
        (if int64 pk then {| status_code := 404; content_ := Detail "Project not found" |}
         else {| status_code := 500; content_ := InternalServerError |}, db) in
      (forall payload,
          respond 200 (row (update_project foreign_keys pk payload)) db = not_found)
      /\ (forall payload,
             respond 200 (row (patch_project foreign_keys pk payload)) db = not_found)).
Proof.
  split; intros H not_found; repeat split; intros;
    unfold get_user, update_user, patch_user, delete_user, update_project, patch_project;
    session_ops; cbn; rewrite H; destruct (int64 pk); reflexivity.
Qed.

(** X6: a full update of an existing user whose new email and student_id
    are its own or free, and whose new age is within 64 bits, writes every
    field of the payload over the row, under the same key, and leaves
    projects and courses alone. *)
Theorem update_user_replaces (db : Database) (users_id : Z) (r : Users.row)
        (payload : UserCreate.t) :
  find_user db users_id = Some r ->
  int64 (UserCreate.age payload) = true ->
  Users.email r = UserCreate.email payload
  \/ (forall r', In r' (users db) -> Users.email r' <> UserCreate.email payload) ->
  Users.student_id r = UserCreate.student_id payload
  \/ (forall r', In r' (users db) ->
                 Users.student_id r' <> UserCreate.student_id payload) ->
  exists s',
    update_user foreign_keys users_id payload (open_session db)
    = (Ok (User (UserDB.of_row (replaced_user users_id payload))), s')
    /\ find_user (committed s') users_id = Some (replaced_user users_id payload)
    /\ projects (committed s') = projects db
    /\ courses (committed s') = courses db.
Proof.
  intros H H64 He Hs. pose proof (find_user_id _ _ _ H) as Hid. subst users_id.
  unfold update_user. session_ops. cbn. rewrite H. cbn.
  unfold update_users, UserDB.setattr. cbn. rewrite H.
  case_bool_decide as Heq.
  - cbn. rewrite H. cbn. injection Heq as Hn Hm Ha Hi.
    assert (replaced_user (Users.id r) payload = r) as ->
        by (destruct r; unfold replaced_user; cbn in *; congruence).
    eexists. split; [reflexivity|]. cbn. auto.
  - rewrite H64, andb_false_r, (changed_and_taken _ _ _ Users.email He),
      (changed_and_taken _ _ _ Users.student_id Hs). cbn.
    unfold find_user at 1. cbn.
    erewrite find_replace; [| exact H | cbn; lia ].
    cbn. eexists. split; [reflexivity|]. cbn. split; [|auto].
    unfold find_user. cbn. erewrite find_replace; [| exact H | cbn; lia]. reflexivity.
Qed.

(** X7: a full update that gives a user the email or the student_id of
    another stored user, with an age within 64 bits, answers 400 "Email or
    Student ID already exists" and the datastore stays as it is. *)
Theorem update_user_conflict (db : Database) (users_id : Z) (r r' : Users.row)
        (payload : UserCreate.t) :
  find_user db users_id = Some r ->
  int64 (UserCreate.age payload) = true ->
  In r' (users db) ->
  (Users.email r' = UserCreate.email payload
   /\ Users.email r <> UserCreate.email payload)
  \/ (Users.student_id r' = UserCreate.student_id payload
      /\ Users.student_id r <> UserCreate.student_id payload) ->
  respond 200 (row (update_user foreign_keys users_id payload)) db
  = ({| status_code := 400; content_ := Detail "Email or Student ID already exists" |},
     db).
Proof.
  intros H H64 Hin Hc. pose proof (find_user_id _ _ _ H) as Hid. subst users_id.
  unfold update_user. session_ops. cbn. rewrite H. cbn.
  unfold update_users, UserDB.setattr. cbn. rewrite H.
  rewrite bool_decide_eq_false_2.
  2:{ intros Heq. injection Heq as Hn Hm Ha Hi. destruct Hc as [[_ Hc]|[_ Hc]]; congruence. }
  rewrite H64, andb_false_r.
  match goal with
  | |- context [if ?c then Raise IntegrityError else _] => assert (Hcond : c = true)
  end.
  { apply orb_true_iff. destruct Hc as [[He Hne]|[Hs Hne]]; [left|right];
      (apply andb_true_iff; split;
       [apply negb_true_iff, bool_decide_eq_false, Hne
       |apply existsb_exists; exists r'; split; [exact Hin|apply str_eqb_eq; assumption]]). }
  rewrite Hcond. cbn. reflexivity.
Qed.

(** X8: a partial update that sets no field answers 200 with the row as
    stored and changes nothing. *)
Theorem patch_nothing_is_noop (db : Database) (pk : Z) :
  (forall r, find_user db pk = Some r ->
             respond 200 (row (patch_user foreign_keys pk nothing_set_user)) db
             = ({| status_code := 200; content_ := Row (User (UserDB.of_row r)) |}, db))
  /\ (forall r, find_project db pk = Some r ->
                respond 200 (row (patch_project foreign_keys pk nothing_set_project)) db
                = ({| status_code := 200;
                      content_ := Row (Project (ProjectDB.of_row r)) |}, db)).
Proof.
  split; intros r H.
  - pose proof (find_user_id _ _ _ H) as Hid. subst pk.
    unfold patch_user. session_ops. cbn. rewrite H. cbn.
    unfold update_users. cbn. rewrite H, bool_decide_eq_true_2 by reflexivity.
    cbn. rewrite H. destruct db; reflexivity.
  - pose proof (find_project_id _ _ _ H) as Hid. subst pk.
    unfold patch_project. session_ops. cbn. rewrite H. cbn.
    unfold update_projects. cbn. rewrite H, bool_decide_eq_true_2 by reflexivity.
    cbn. rewrite H. destruct db; reflexivity.
Qed.

(** X9: a full update that moves a project to an owner_id within 64 bits
    that no user has is refused with 400 "Project already exists" when the
    engine checks foreign keys; when it does not, the update goes through
    and the store holds a project without owner. *)
Theorem update_project_missing_owner (db : Database) (project_id : Z)
        (r : Projects.row) (payload : ProjectCreate.t) :
  find_project db project_id = Some r ->
  int64 (ProjectCreate.owner_id payload) = true ->
  find_user db (ProjectCreate.owner_id payload) = None ->
  Projects.owner_id r <> ProjectCreate.owner_id payload ->
  respond 200 (row (update_project true project_id payload)) db
  = ({| status_code := 400; content_ := Detail "Project already exists" |}, db)
  /\ exists db',
      respond 200 (row (update_project false project_id payload)) db
      = ({| status_code := 200;
            content_ := Row (Project (ProjectDB.of_row (replaced project_id payload))) |},
         db')
      /\ ~ referential_integrity db'.
Proof.
  intros H H64 Hnone Hne. pose proof (find_project_id _ _ _ H) as Hid. subst project_id.
  assert (Hex : existsb (fun r' => Users.id r' =? ProjectCreate.owner_id payload)
                        (users db) = false).
  { apply existsb_none. intros x Hin. apply Z.eqb_neq. intros Hx.
    unfold find_user in Hnone.
    apply (find_none _ _ Hnone) in Hin. cbn in Hin. lia. }
  assert (Hneq : ProjectDB.of_row r
                 <> {| ProjectDB.id := Some (Projects.id r);
                       ProjectDB.name := Some (ProjectCreate.name payload);
                       ProjectDB.description := ProjectCreate.description payload;
                       ProjectDB.owner_id := Some (ProjectCreate.owner_id payload) |}).
  { intros Heq. injection Heq as _ _ Ho. congruence. }
  split.
  - unfold update_project. session_ops. cbn. rewrite H. cbn.
    unfold update_projects, ProjectDB.setattr. cbn.
    rewrite H, ?store_str_of_str, bool_decide_eq_false_2 by exact Hneq.
    rewrite H64, andb_false_r, Hex. apply Z.eqb_neq in Hne. rewrite Hne. cbn. reflexivity.
  - unfold update_project. session_ops. cbn. rewrite H. cbn.
    unfold update_projects, ProjectDB.setattr. cbn.
    rewrite H, ?store_str_of_str, bool_decide_eq_false_2 by exact Hneq.
    rewrite H64, andb_false_r. cbn.
    try unfold find_project. cbn.
    erewrite find_replace; [| exact H | cbn; lia ].
    cbn. eexists. split; [reflexivity|].
    intros Hri.
    destruct (Hri (replaced (Projects.id r) payload)) as [o Ho].
    + cbn. apply in_map_iff. exists r. rewrite Z.eqb_refl. split; [reflexivity|].
      unfold find_project in H. apply find_some in H. apply H.
    + unfold find_user in *. cbn in *. congruence.
Qed.

Lemma patch_user_sets_null (db : Database) (users_id : Z) (r : Users.row)
        (payload : UserUpdate.t) :
  find_user db users_id = Some r ->
  nulls_a_column payload ->
  respond 200 (row (patch_user foreign_keys users_id payload)) db
  = ({| status_code := 400; content_ := Detail "Email or Student ID already exists" |},
     db).
Proof.
  intros H Hnull. pose proof (find_user_id _ _ _ H) as Hid. subst users_id.
  destruct payload as [[|[s|]] [|[n|]] [|[e|]] [|[a|]]];
    destruct Hnull as [Hn|[Hn|[Hn|Hn]]]; try discriminate Hn; clear Hn;
    unfold patch_user; session_ops; cbn; rewrite H; cbn;
    unfold update_users, UserDB.setattr; cbn; rewrite H;
    (rewrite bool_decide_eq_false_2 by (intros Heq; discriminate Heq));
    reflexivity.
Qed.

(** X11: a partial update that sets the name of a project to null is
    refused by the NOT NULL column: 400 "Project already exists", nothing
    stored. *)
Theorem patch_project_null_name (db : Database) (project_id : Z) (r : Projects.row)
        (description : field (option str)) :
  find_project db project_id = Some r ->
  respond 200 (row (patch_project foreign_keys project_id
                      {| ProjectUpdate.name := Set_ None;
                         ProjectUpdate.description := description |})) db
  = ({| status_code := 400; content_ := Detail "Project already exists" |}, db).
Proof.
  intros H. pose proof (find_project_id _ _ _ H) as Hid. subst project_id.
  destruct description as [|d];
    unfold patch_project; session_ops; cbn; rewrite H; cbn;
    unfold update_projects, ProjectDB.setattr; cbn; rewrite H;
    (rewrite bool_decide_eq_false_2 by (intros Heq; discriminate Heq));
    reflexivity.
Qed.

(** X12: the project list and the user list are the whole table in
    ascending order of the primary key, and a listing changes nothing. *)
Theorem list_projects_and_users_ordered (db : Database) :
  (exists sorted,
      Permutation sorted (projects db)
      /\ StronglySorted (by_key Projects.id) sorted
      /\ list_projects (open_session db) = (Ok (project_instances sorted), open_session db))
  /\ (exists sorted,
         Permutation sorted (users db)
         /\ StronglySorted (by_key Users.id) sorted
         /\ list_users (open_session db) = (Ok (user_instances sorted), open_session db)).
Proof.
  split.
  - exists (order_by Projects.id (projects db)).
    split; [apply order_by_Permutation|]. split; [apply order_by_StronglySorted|reflexivity].
  - exists (order_by Users.id (users db)).
    split; [apply order_by_Permutation|]. split; [apply order_by_StronglySorted|reflexivity].
Qed.

(** X13: reading a project under a key beyond 64 bits ends in the
    OverflowError of the driver; under a key within, it answers 404
    "Project not found" for a missing key and, for a stored one, keys being
    unique, gives the project and the user its owner_id names, if there is
    one. *)
Theorem get_project_with_owner_loads_owner (db : Database) (project_id : Z) :
  (int64 project_id = false ->
   get_project_with_owner project_id (open_session db)
   = (Raise OverflowError, open_session db))
  /\ (int64 project_id = true ->
      find_project db project_id = None ->
      get_project_with_owner project_id (open_session db)
      = (Raise (HTTPException 404 "Project not found"), open_session db))
  /\ (forall r, int64 project_id = true ->
                List.NoDup (map Projects.id (projects db)) ->
                find_project db project_id = Some r ->
                get_project_with_owner project_id (open_session db)
                = (Ok (Project (ProjectDB.of_row r),
                       option_map (fun o => User (UserDB.of_row o))
                                  (find_user db (Projects.owner_id r))),
                   open_session db)).
Proof.
  split; [|split].
  - intros H64. unfold get_project_with_owner. session_ops. cbn.
    rewrite H64. reflexivity.
  - intros H64 H. unfold get_project_with_owner. session_ops. cbn. rewrite H64. cbn.
    rewrite filter_none; [reflexivity|].
    intros x Hin. unfold find_project in H. apply (find_none _ _ H), Hin.
  - intros r H64 Hnd H. unfold get_project_with_owner. session_ops. cbn.
    rewrite H64. cbn.
    unfold find_project in H. rewrite (filter_unique Projects.id _ _ _ Hnd H). cbn.
    rewrite head_owner. reflexivity.
Qed.

(** X14: with a limit and an offset within 64 bits, a course page holds
    min(limit, rows - offset) courses: none once the offset reaches the
    end of the table. *)
Theorem list_courses_page_length (db : Database) (limit_ offset_ : Z) :
  0 <= limit_ -> 0 <= offset_ ->
  int64 limit_ = true -> int64 offset_ = true ->
  exists page,
    list_courses limit_ offset_ (open_session db) = (Ok page, open_session db)
    /\ length page
       = Nat.min (Z.to_nat limit_) (length (courses db) - Z.to_nat offset_).
Proof.
  intros Hl Ho Hl64 Ho64. eexists.
  split; [unfold list_courses, scalars; cbn [forallb]; rewrite Hl64, Ho64; reflexivity|].
  unfold course_instances, offset. rewrite length_map, limit_firstn by exact Hl.
  rewrite length_firstn, length_skipn. cbn [txn open_session].
  rewrite (Permutation_length (order_by_Permutation Courses.id (courses db))).
  reflexivity.
Qed.

(** X15: after the deletion of a user, reading the user answers 404, the
    list of its projects is empty, and deleting it again answers 404.
    (The keys of stored rows are within 64 bits; were the key beyond, the
    driver would refuse it once its row is gone, and the three requests
    would end in a 500.) *)
Theorem deleted_user_is_gone (db : Database) (users_id : Z) (r : Users.row) :
  find_user db users_id = Some r ->
  exists db',
    respond 204 (delete_user foreign_keys users_id;; mret Empty) db
    = ({| status_code := 204; content_ := Empty |}, db')
    /\ respond 200 (row (get_user users_id)) db'
       = (if int64 users_id
          then {| status_code := 404; content_ := Detail "User not found" |}
          else {| status_code := 500; content_ := InternalServerError |}, db')
    /\ respond 200 (rows (get_user_projects users_id)) db'
       = (if int64 users_id
          then {| status_code := 200; content_ := Rows [] |}
          else {| status_code := 500; content_ := InternalServerError |}, db')
    /\ respond 204 (delete_user foreign_keys users_id;; mret Empty) db'
       = (if int64 users_id
          then {| status_code := 404; content_ := Detail "User not found" |}
          else {| status_code := 500; content_ := InternalServerError |}, db').
Proof.
  intros H. pose proof (find_user_id _ _ _ H) as Hid. subst users_id.
  eexists. split.
  { unfold delete_user. session_ops. cbn. rewrite H. cbn. reflexivity. }
  assert (Hgone : find_user (delete_from db (User (UserDB.of_row r))) (Users.id r) = None).
  { unfold find_user. cbn.
    rewrite <- (find_filter_out (fun r0 => Users.id r0 =? Users.id r) (users db)).
    f_equal. apply filter_ext. intros a. f_equal.
    apply eq_true_iff_eq. rewrite bool_decide_eq_true, Z.eqb_eq. split; congruence. }
  cbn in Hgone. split; [|split].
  - unfold get_user. session_ops. cbn. unfold find_user in *. cbn in *.
    rewrite Hgone. destruct (int64 _); reflexivity.
  - unfold get_user_projects. session_ops. cbn.
    destruct (int64 _); [|reflexivity]. cbn.
    rewrite filter_none; [reflexivity|].
    intros x Hin. apply filter_In in Hin as [_ Hx].
    apply negb_true_iff, bool_decide_eq_false in Hx. apply Z.eqb_neq. congruence.
  - unfold delete_user. session_ops. cbn. unfold find_user in *. cbn in *.
    rewrite Hgone. destruct (int64 _); reflexivity.
Qed.
(** X19: an integer beyond 64 bits that a request hands to the driver
    ends the request in a 500, and nothing is stored: the age of a new
    user, the limit or the offset of the course list, the user id of the
    relationship fetch, and the new owner of a project or the new age of a
    user in a full update. *)
Theorem integer_beyond_64_bits_is_500 (db : Database) (z : Z) :
  int64 z = false ->
  let refused := ({| status_code := 500; content_ := InternalServerError |}, db) in
  (forall payload, UserCreate.age payload = z ->
                   respond 201 (row (add_user foreign_keys payload)) db = refused)
  /\ (forall other, respond 200 (rows (list_courses z other)) db = refused
                    /\ respond 200 (rows (list_courses other z)) db = refused)
  /\ respond 200 (rows (get_user_projects z)) db = refused
  /\ (forall project_id r payload,
         find_project db project_id = Some r ->
         ProjectCreate.owner_id payload = z ->
         Projects.owner_id r <> z ->
         respond 200 (row (update_project foreign_keys project_id payload)) db = refused)
  /\ (forall users_id r payload,
         find_user db users_id = Some r ->
         UserCreate.age payload = z ->
         Users.age r <> z ->
         respond 200 (row (update_user foreign_keys users_id payload)) db = refused).
Proof.
  intros H64 refused. split; [|split; [|split; [|split]]].
  - intros payload <-. unfold add_user. session_ops. cbn.
    unfold insert_into_users. cbn. rewrite H64. reflexivity.
  - intros other. split; unfold list_courses; session_ops; cbn; rewrite H64;
      rewrite ?andb_false_r; reflexivity.
  - unfold get_user_projects. session_ops. cbn. rewrite H64. reflexivity.
  - intros project_id r payload H <- Hne.
    pose proof (find_project_id _ _ _ H) as Hid. subst project_id.
    unfold update_project. session_ops. cbn. rewrite H. cbn.
    unfold update_projects, ProjectDB.setattr. cbn. rewrite H, ?store_str_of_str.
    rewrite bool_decide_eq_false_2 by (intros Heq; injection Heq as _ _ Ho; congruence).
    apply Z.eqb_neq in Hne. rewrite Hne, H64. reflexivity.
  - intros users_id r payload H <- Hne.
    pose proof (find_user_id _ _ _ H) as Hid. subst users_id.
    unfold update_user. session_ops. cbn. rewrite H. cbn.
    unfold update_users, UserDB.setattr. cbn. rewrite H.
    rewrite bool_decide_eq_false_2 by (intros Heq; injection Heq as _ _ Ha _; congruence).
    apply Z.eqb_neq in Hne. rewrite Hne, H64. reflexivity.
Qed.

End MoreHandlerFacts.

(** ** The constraints of the tables *)

Section Constraints.
Variable foreign_keys : bool.

Lemma insert_into_users_keeps (t t' : Database) (o o' : UserDB.t) :
  constraints_hold foreign_keys t ->
  insert_into_users t o = Ok (t', o') ->
  constraints_hold foreign_keys t'.
Proof.
  intros [Hi He Hs Hp Hc Hd Hri]. unfold insert_into_users.
  destruct (UserDB.to_row _ o) as [r|] eqn:Er; [|discriminate].
  pose proof (to_row_user_id _ _ _ Er) as Hid.
  destruct (negb (int64 _)); [discriminate|].
  destruct (_ || _) eqn:Ec; [discriminate|]. intros H. inversion H; subst t' o'.
  apply orb_false_iff in Ec as [Ec E3]. apply orb_false_iff in Ec as [E1 E2].
  constructor; cbn; auto.
  - apply NoDup_map_snoc; [exact Hi|]. rewrite Hid. apply not_taken_Z, E1.
  - apply NoDup_map_snoc; [exact He|]. apply not_taken_str, E2.
  - apply NoDup_map_snoc; [exact Hs|]. apply not_taken_str, E3.
  - intros Hfk p Hin. destruct (Hri Hfk p Hin) as [x Hx].
    exists x. unfold find_user in *. cbn. apply find_app_some, Hx.
Qed.

Lemma insert_into_projects_keeps (t t' : Database) (o o' : ProjectDB.t) :
  constraints_hold foreign_keys t ->
  insert_into_projects foreign_keys t o = Ok (t', o') ->
  constraints_hold foreign_keys t'.
Proof.
  intros [Hi He Hs Hp Hc Hd Hri]. unfold insert_into_projects.
  destruct (ProjectDB.to_row _ o) as [r|] eqn:Er; [|discriminate].
  pose proof (to_row_project_id _ _ _ Er) as Hid.
  destruct (_ || _) eqn:Ec; [discriminate|]. intros H. inversion H; subst t' o'.
  apply orb_false_iff in Ec as [E1 E2].
  constructor; cbn; auto.
  - apply NoDup_map_snoc; [exact Hp|]. rewrite Hid. apply not_taken_Z, E1.
  - intros Hfk p Hin. cbn in Hin. apply in_app_iff in Hin as [Hin|[<-|[]]].
    + apply (Hri Hfk p Hin).
    + rewrite Hfk in E2. cbn in E2. apply negb_false_iff in E2.
      apply existsb_find_user in E2. exact E2.
Qed.

Lemma insert_into_courses_keeps (t t' : Database) (o o' : CourseDB.t) :
  constraints_hold foreign_keys t ->
  insert_into_courses t o = Ok (t', o') ->
  constraints_hold foreign_keys t'.
Proof.
  intros [Hi He Hs Hp Hc Hd Hri]. unfold insert_into_courses.
  destruct (CourseDB.to_row _ o) as [r|] eqn:Er; [|discriminate].
  pose proof (to_row_course_id _ _ _ Er) as Hid.
  destruct (_ || _) eqn:Ec; [discriminate|]. intros H. inversion H; subst t' o'.
  apply orb_false_iff in Ec as [E1 E2].
  constructor; cbn; auto.
  - apply NoDup_map_snoc; [exact Hc|]. rewrite Hid. apply not_taken_Z, E1.
  - apply NoDup_map_snoc; [exact Hd|]. apply not_taken_str, E2.
Qed.

Lemma update_users_keeps (t t' : Database) (o : UserDB.t) :
  constraints_hold foreign_keys t ->
  update_users t o = Ok t' ->
  constraints_hold foreign_keys t'.
Proof.
  intros Hc. pose proof Hc as [Hi He Hs Hp Hci Hd Hri]. unfold update_users.
  destruct (UserDB.id o) as [pk|]; [|discriminate].
  destruct (find_user t pk) as [old|] eqn:Eo; [|intros H; inversion H; subst; exact Hc].
  case_bool_decide as Hbd; [intros H; inversion H; subst; exact Hc|].
  destruct (UserDB.to_row pk o) as [r|] eqn:Er; [|discriminate].
  pose proof (to_row_user_id _ _ _ Er) as Hid.
  destruct (negb (_ =? _) && negb (int64 _)); [discriminate|].
  destruct (_ || _) eqn:Ec; [discriminate|]. intros H'. inversion H'; subst t'.
  apply orb_false_iff in Ec as [E1 E2].
  unfold find_user in Eo.
  constructor; cbn; auto.
  - rewrite map_key_replace by exact Hid. exact Hi.
  - apply (NoDup_map_replace Users.email Users.id pk r old); auto.
    apply (unchanged_or_free _ _ Users.email), E1.
  - apply (NoDup_map_replace Users.student_id Users.id pk r old); auto.
    apply (unchanged_or_free _ _ Users.student_id), E2.
  - intros Hfk p Hin. destruct (Hri Hfk p Hin) as [x Hx]. unfold find_user in *. cbn.
    destruct (Z.eq_dec (Projects.owner_id p) pk) as [->|Hne].
    + exists r. apply (find_replace (fun x => Users.id x =? pk) r _ old Eo).
      apply Z.eqb_eq, Hid.
    + exists x. rewrite find_replace_ne; auto.
Qed.

Lemma update_projects_keeps (t t' : Database) (o : ProjectDB.t) :
  constraints_hold foreign_keys t ->
  update_projects foreign_keys t o = Ok t' ->
  constraints_hold foreign_keys t'.
Proof.
  intros Hc. pose proof Hc as [Hi He Hs Hp Hci Hd Hri]. unfold update_projects.
  destruct (ProjectDB.id o) as [pk|]; [|discriminate].
  destruct (find_project t pk) as [old|] eqn:Eo; [|intros H; inversion H; subst; exact Hc].
  case_bool_decide as Hbd; [intros H; inversion H; subst; exact Hc|].
  destruct (ProjectDB.to_row pk o) as [r|] eqn:Er; [|discriminate].
  pose proof (to_row_project_id _ _ _ Er) as Hid.
  destruct (negb (_ =? _) && negb (int64 _)); [discriminate|].
  destruct (_ && _ && _) eqn:Ec; [discriminate|]. intros H'. inversion H'; subst t'.
  unfold find_project in Eo.
  constructor; cbn; auto.
  - rewrite map_key_replace by exact Hid. exact Hp.
  - intros Hfk p Hin. cbn in Hin. apply In_replace in Hin as [->|Hin].
    + rewrite Hfk in Ec. cbn in Ec. apply andb_false_iff in Ec as [Ec|Ec].
      * apply negb_false_iff, Z.eqb_eq in Ec. rewrite <- Ec.
        apply (Hri Hfk old). apply find_some in Eo. apply Eo.
      * apply negb_false_iff, existsb_find_user in Ec. exact Ec.
    + apply (Hri Hfk p Hin).
Qed.

Lemma update_courses_keeps (t t' : Database) (o : CourseDB.t) :
  constraints_hold foreign_keys t ->
  update_courses t o = Ok t' ->
  constraints_hold foreign_keys t'.
Proof.
  intros Hc. pose proof Hc as [Hi He Hs Hp Hci Hd Hri]. unfold update_courses.
  destruct (CourseDB.id o) as [pk|]; [|discriminate].
  destruct (find_course t pk) as [old|] eqn:Eo; [|intros H; inversion H; subst; exact Hc].
  case_bool_decide as Hbd; [intros H; inversion H; subst; exact Hc|].
  destruct (CourseDB.to_row pk o) as [r|] eqn:Er; [|discriminate].
  pose proof (to_row_course_id _ _ _ Er) as Hid.
  destruct (_ && _) eqn:Ec; [discriminate|]. intros H'. inversion H'; subst t'.
  unfold find_course in Eo.
  constructor; cbn; auto.
  - rewrite map_key_replace by exact Hid. exact Hci.
  - apply (NoDup_map_replace Courses.code Courses.id pk r old); auto.
    apply (unchanged_or_free _ _ Courses.code), Ec.
Qed.

Lemma delete_from_keeps (t : Database) (i : instance) :
  constraints_hold foreign_keys t ->
  constraints_hold foreign_keys (delete_from t i).
Proof.
  intros [Hi He Hs Hp Hci Hd Hri].
  destruct i as [o|o|o]; constructor; cbn; auto using NoDup_map_filter.
  - intros Hfk p Hin. cbn in Hin. apply filter_In in Hin as [Hin Hne].
    apply negb_true_iff, bool_decide_eq_false in Hne.
    destruct (Hri Hfk p Hin) as [x Hx]. exists x. unfold find_user in *. cbn.
    rewrite find_filter_keep; [exact Hx|].
    intros y Hy. apply Z.eqb_eq in Hy. apply negb_true_iff, bool_decide_eq_false.
    congruence.
  - intros Hfk p Hin. cbn in Hin. apply filter_In in Hin as [Hin _].
    apply (Hri Hfk p Hin).
Qed.

Lemma flush_one_keeps (t t' : Database) (e e' : instance * state) :
  constraints_hold foreign_keys t ->
  flush_one foreign_keys t e = Ok (t', e') ->
  constraints_hold foreign_keys t'.
Proof.
  intros Hc. destruct e as [[o|o|o] []]; cbn [flush_one]; intros H;
    try (injection H as <- <-; exact Hc);
    try match type of H with
        | Ok (delete_from ?t0 ?i, _) = Ok _ =>
            injection H as <- <-; exact (delete_from_keeps t0 i Hc)
        end.
  - destruct (insert_into_users t o) as [[t1 o1]|x] eqn:E; inversion H; subst.
    eapply insert_into_users_keeps; eauto.
  - destruct (update_users t o) as [t1|x] eqn:E; inversion H; subst.
    eapply update_users_keeps; eauto.
  - destruct (insert_into_projects foreign_keys t o) as [[t1 o1]|x] eqn:E;
      inversion H; subst.
    eapply insert_into_projects_keeps; eauto.
  - destruct (update_projects foreign_keys t o) as [t1|x] eqn:E; inversion H; subst.
    eapply update_projects_keeps; eauto.
  - destruct (insert_into_courses t o) as [[t1 o1]|x] eqn:E; inversion H; subst.
    eapply insert_into_courses_keeps; eauto.
  - destruct (update_courses t o) as [t1|x] eqn:E; inversion H; subst.
    eapply update_courses_keeps; eauto.
Qed.

Lemma flush_keeps (l l' : list (instance * state)) (t t' : Database) :
  constraints_hold foreign_keys t ->
  flush foreign_keys t l = Ok (t', l') ->
  constraints_hold foreign_keys t'.
Proof.
  revert t l'. induction l as [|e l IH]; cbn; intros t l' Hc H.
  - inversion H; subst; exact Hc.
  - destruct (flush_one foreign_keys t e) as [[t1 e1]|x] eqn:E1; [|discriminate].
    destruct (flush foreign_keys t1 l) as [[t2 l2]|x] eqn:E2; [|discriminate].
    inversion H; subst. eapply IH; [|exact E2]. eapply flush_one_keeps; eauto.
Qed.

End Constraints.

Lemma find_route_In (l : list route) (req : Request) (r : route) (pp : gmap string str) :
  find_route l req = Some (r, pp) ->
  In r l /\ method_eqb (route_method r) (request_method req) = true.
Proof.
  induction l as [|x l IH]; cbn; [discriminate|].
  destruct (match_path (route_path x) (path req)).
  - destruct (method_eqb (route_method x) (request_method req)) eqn:E.
    + intros H. inversion H; subst. auto.
    + intros H. destruct (IH H). auto.
  - intros H. destruct (IH H). auto.
Qed.

Section Keeping.
Variable foreign_keys : bool.

Lemma keeps_ret {A} (a : A) : keeps foreign_keys (mret a).
Proof. intros s r s' Hc Ht H. inversion H; subst. auto. Qed.

Lemma keeps_raise {A} (e : exn) : keeps foreign_keys (@raise A e).
Proof. intros s r s' Hc Ht H. inversion H; subst. auto. Qed.

Lemma keeps_bind {A B} (m : M A) (f : A -> M B) :
  keeps foreign_keys m -> (forall a, keeps foreign_keys (f a)) ->
  keeps foreign_keys (m ≫= f).
Proof.
  intros Hm Hf s r s' Hc Ht. unfold mbind, M_bind.
  destruct (m s) as [[a|e] s1] eqn:E; destruct (Hm _ _ _ Hc Ht E) as [Hc1 Ht1].
  - intros H. eapply Hf; eauto.
  - intros H. inversion H; subst. auto.
Qed.

Lemma keeps_try {A} (body handler : M A) :
  keeps foreign_keys body -> keeps foreign_keys handler ->
  keeps foreign_keys (try_except_IntegrityError body handler).
Proof.
  intros Hb Hh s r s' Hc Ht. unfold try_except_IntegrityError.
  destruct (body s) as [[a|e] s1] eqn:E; destruct (Hb _ _ _ Hc Ht E) as [Hc1 Ht1].
  - intros H. inversion H; subst. auto.
  - destruct (is_IntegrityError e).
    + intros H. eapply Hh; eauto.
    + intros H. inversion H; subst. auto.
Qed.

(** What only touches the objects of the session keeps the constraints. *)
Lemma keeps_store_untouched {A} (m : M A) :
  (forall s, committed (snd (m s)) = committed s /\ txn (snd (m s)) = txn s) ->
  keeps foreign_keys m.
Proof.
  intros Hm s r s' Hc Ht H. destruct (Hm s) as [H1 H2].
  rewrite H in H1, H2. cbn in H1, H2. rewrite H1, H2. auto.
Qed.

Lemma keeps_new (i : instance) : keeps foreign_keys (new i).
Proof. apply keeps_store_untouched. intros s. split; reflexivity. Qed.

Lemma keeps_add (r : nat) : keeps foreign_keys (add r).
Proof. apply keeps_store_untouched. intros s. split; reflexivity. Qed.

Lemma keeps_get (c : mapped_class) (pk : Z) : keeps foreign_keys (get c pk).
Proof.
  apply keeps_store_untouched. intros s. unfold get.
  destruct (index_of _ _); [split; reflexivity|].
  destruct (select_by_pk _ _ _); [|destruct (int64 pk)]; split; reflexivity.
Qed.

Lemma keeps_deref (r : nat) : keeps foreign_keys (deref r).
Proof.
  apply keeps_store_untouched. intros s. unfold deref.
  destruct (objects s !! r) as [[i st]|]; split; reflexivity.
Qed.

Lemma keeps_setattr_items (r : nat) (items : list (string * value)) :
  keeps foreign_keys (setattr_items r items).
Proof. apply keeps_store_untouched. intros s. split; reflexivity. Qed.

Lemma keeps_delete (r : nat) : keeps foreign_keys (delete r).
Proof.
  apply keeps_store_untouched. intros s. unfold delete.
  destruct (objects s !! r) as [[i []]|]; split; reflexivity.
Qed.

Lemma keeps_refresh (r : nat) : keeps foreign_keys (refresh r).
Proof.
  apply keeps_store_untouched. intros s. unfold refresh.
  destruct (objects s !! r) as [[i []]|]; try (split; reflexivity).
  destruct (reload _ _); split; reflexivity.
Qed.

Lemma keeps_scalars (parameters : list Z) (stmt : Database -> list instance) :
  keeps foreign_keys (scalars parameters stmt).
Proof.
  apply keeps_store_untouched. intros s. unfold scalars.
  destruct (forallb int64 parameters); split; reflexivity.
Qed.

Lemma keeps_commit : keeps foreign_keys (commit foreign_keys).
Proof.
  intros s r s' Hc Ht. unfold commit.
  destruct (flush foreign_keys (txn s) (objects s)) as [[t l]|x] eqn:E.
  - intros H. inversion H; subst. cbn.
    pose proof (flush_keeps foreign_keys _ _ _ _ Ht E). auto.
  - intros H. inversion H; subst. auto.
Qed.

Lemma keeps_rollback : keeps foreign_keys rollback.
Proof. intros s r s' Hc Ht H. inversion H; subst. cbn. auto. Qed.

Lemma keeps_match_option {A B} (o : option A) (m : M B) (f : A -> M B) :
  keeps foreign_keys m -> (forall a, keeps foreign_keys (f a)) ->
  keeps foreign_keys (match o with Some a => f a | None => m end).
Proof. intros Hm Hf. destruct o; auto. Qed.

End Keeping.

Ltac keeps_tac :=
  repeat first
    [ apply keeps_ret | apply keeps_raise | apply keeps_new | apply keeps_add
    | apply keeps_get | apply keeps_deref | apply keeps_setattr_items
    | apply keeps_delete | apply keeps_refresh | apply keeps_scalars
    | apply keeps_commit | apply keeps_rollback
    | apply keeps_try
    | apply keeps_bind; [|intros ?]
    | match goal with
      | |- keeps _ (match ?x with _ => _ end) => destruct x
      end ].

Section AllRequests.
Variable Nd : N -> bool.
Variable sai : str -> option Z.
Variable ve : str -> option str.
Variable foreign_keys : bool.

Lemma respond_keeps (status : Z) (m : M content) (db : Database) :
  keeps foreign_keys m ->
  constraints_hold foreign_keys db ->
  constraints_hold foreign_keys (snd (respond status m db)).
Proof.
  intros Hm Hc. unfold respond.
  destruct (m (open_session db)) as [[c|e] s] eqn:E;
    destruct (Hm (open_session db) _ _ Hc Hc E) as [H _]; [|destruct e]; exact H.
Qed.

Lemma with_args_keeps {A} (v : validated A) (call : A -> M content) (m : M content) :
  (forall a, keeps foreign_keys (call a)) ->
  with_args v call = Valid m -> keeps foreign_keys m.
Proof. intros H. destruct v; cbn; intros E; inversion E; subst. apply H. Qed.

(** X16: whatever the request, if the datastore satisfies the constraints
    of the tables (unique primary keys, emails, student ids and course
    codes; with foreign keys checked, an existing owner for every project)
    then so does the datastore the request leaves. *)
Theorem every_request_keeps_constraints (req : Request) (db : Database) :
  constraints_hold foreign_keys db ->
  constraints_hold foreign_keys (snd (handle Nd sai ve foreign_keys req db)).
Proof.
  intros Hc. unfold handle.
  destruct (find_route _ req) as [[r pp]|] eqn:E.
  2:{ destruct (existsb _ _); exact Hc. }
  apply find_route_In in E as [Hin _].
  destruct (endpoint r _ req) as [m|errors] eqn:Em; [|exact Hc].
  apply respond_keeps; [|exact Hc].
  unfold routes in Hin. cbn [In] in Hin.
  repeat (destruct Hin as [<-|Hin]); [..|destruct Hin];
    cbv beta iota delta [endpoint] in Em;
    first [ injection Em as <- | apply with_args_keeps in Em; [exact Em|] ];
    try (intros [? ?]); try (intros ?);
    unfold row, rows, create_course, list_courses, create_project, list_projects,
      get_project_with_owner, update_project, patch_project, get_user_projects,
      create_user_project, list_users, get_user, add_user, update_user, patch_user,
      delete_user, commit_or_rollback;
    keeps_tac.
Qed.

Lemma reads_ret {A} (a : A) : reads (mret a).
Proof. intros s. reflexivity. Qed.

Lemma reads_raise {A} (e : exn) : reads (@raise A e).
Proof. intros s. reflexivity. Qed.

Lemma reads_bind {A B} (m : M A) (f : A -> M B) :
  reads m -> (forall a, reads (f a)) -> reads (m ≫= f).
Proof.
  intros Hm Hf s. unfold mbind, M_bind. specialize (Hm s).
  destruct (m s) as [[a|e] s1]; cbn in *; [|exact Hm].
  rewrite Hf. exact Hm.
Qed.

Lemma reads_get (c : mapped_class) (pk : Z) : reads (get c pk).
Proof.
  intros s. unfold get. destruct (index_of _ _); [reflexivity|].
  destruct (select_by_pk _ _ _); [|destruct (int64 pk)]; reflexivity.
Qed.

Lemma reads_deref (r : nat) : reads (deref r).
Proof. intros s. unfold deref. destruct (objects s !! r) as [[i st]|]; reflexivity. Qed.

Lemma reads_scalars (parameters : list Z) (stmt : Database -> list instance) :
  reads (scalars parameters stmt).
Proof. intros s. unfold scalars. destruct (forallb int64 parameters); reflexivity. Qed.

Ltac reads_tac :=
  repeat first
    [ apply reads_ret | apply reads_raise | apply reads_get | apply reads_deref
    | apply reads_scalars
    | apply reads_bind; [|intros ?]
    | match goal with
      | |- reads (match ?x with _ => _ end) => destruct x
      end ].

Lemma respond_reads (status : Z) (m : M content) (db : Database) :
  reads m -> snd (respond status m db) = db.
Proof.
  intros Hm. unfold respond. specialize (Hm (open_session db)).
  destruct (m (open_session db)) as [[c|[]] s]; exact Hm.
Qed.

Lemma with_args_reads {A} (v : validated A) (call : A -> M content) (m : M content) :
  (forall a, reads (call a)) -> with_args v call = Valid m -> reads m.
Proof. intros H. destruct v; cbn; intros E; inversion E; subst. apply H. Qed.


(** X17: a GET request, whatever its path and parameters, leaves the
    datastore as it is. *)
Theorem GET_never_writes (req : Request) (db : Database) :
  request_method req = GET ->
  snd (handle Nd sai ve foreign_keys req db) = db.
Proof.
  intros Hget. unfold handle.
  destruct (find_route _ req) as [[r pp]|] eqn:E.
  2:{ destruct (existsb _ _); reflexivity. }
  apply find_route_In in E as [Hin Hm]. rewrite Hget in Hm.
  destruct (endpoint r _ req) as [m|errors] eqn:Em; [|reflexivity].
  apply respond_reads.
  unfold routes in Hin. cbn [In] in Hin.
  repeat (destruct Hin as [<-|Hin]); [..|destruct Hin];
    try discriminate Hm;
    cbv beta iota delta [endpoint] in Em;
    first [ injection Em as <- | apply with_args_reads in Em; [exact Em|] ];
    try (intros [? ?]); try (intros ?);
    unfold row, rows, list_courses, list_projects, get_project_with_owner,
      get_user_projects, list_users, get_user;
    reads_tac.
Qed.

(** X10: a partial update that sets a column of a user to null passes
    validation and is refused by the NOT NULL column at commit: the answer
    is 400 "Email or Student ID already exists", and nothing is stored. *)
Theorem patch_user_null_column (db : Database) (users_id : Z) (r : Users.row)
        (c : N) (cs : str) :
  find_user db users_id = Some r ->
  sai (c :: cs) = Some users_id ->
  let conflict :=
    ({| status_code := 400; content_ := Detail "Email or Student ID already exists" |},
     db) in
  (forall payload, nulls_a_column payload ->
                   respond 200 (row (patch_user foreign_keys users_id payload)) db
                   = conflict)
  /\ handle Nd sai ve foreign_keys (PATCH_user (c :: cs) {["name" := PyNone]}) db
     = conflict.
Proof.
  intros H Hs conflict. split.
  - intros payload Hnull. apply (patch_user_sets_null foreign_keys db users_id r), Hnull.
    exact H.
  - assert (Hv : validate_UserUpdate Nd sai ve {["name" := PyNone]}
                 = Valid {| UserUpdate.student_id := Unset; UserUpdate.name := Set_ None;
                            UserUpdate.email := Unset; UserUpdate.age := Unset |}).
    { unfold validate_UserUpdate.
      rewrite lookup_singleton_eq, !lookup_singleton_ne by discriminate. reflexivity. }
    rewrite (handle_PATCH_user Nd sai ve foreign_keys c cs users_id _ _ db Hs Hv).
    apply (patch_user_sets_null foreign_keys db users_id r); [exact H|].
    right. left. reflexivity.
Qed.

End AllRequests.

(** ** The further properties at work on a store *)

Lemma sample_db_constraints : constraints_hold true sample_db.
Proof.
  constructor; cbn; try (repeat constructor; cbn; intuition discriminate).
  intros _. exact sample_db_integrity.
Qed.

Lemma create_course_fresh_code_witness :
  existsb (fun r => str_eqb (Courses.code r) (CourseCreate.code logic)) (courses sample_db)
  = false
  /\ exists s',
      create_course true logic (open_session sample_db)
      = (Ok (Course (CourseDB.of_row (created_course sample_db logic))), s')
      /\ committed s' = {| users := users sample_db; projects := projects sample_db;
                           courses := courses sample_db
                                      ++ [created_course sample_db logic] |}.
Proof.
  split; [reflexivity|]. apply (create_course_fresh_code true sample_db logic). reflexivity.
Defined.

Lemma eve_is_new (r : Users.row) :
  In r (users sample_db) ->
  Users.email r <> UserCreate.email eve
  /\ Users.student_id r <> UserCreate.student_id eve.
Proof. intros [<-|[<-|[]]]; split; discriminate. Qed.

Lemma add_user_then_get_user_witness :
  int64 (UserCreate.age eve) = true
  /\ exists s',
    add_user true eve (open_session sample_db)
    = (Ok (User (UserDB.of_row (created_user sample_db eve))), s')
    /\ committed s' = {| users := users sample_db ++ [created_user sample_db eve];
                         projects := projects sample_db; courses := courses sample_db |}
    /\ (forall r, In r (users sample_db) ->
                  Users.id r < Users.id (created_user sample_db eve))
    /\ fst (get_user (Users.id (created_user sample_db eve)) (open_session (committed s')))
       = Ok (User (UserDB.of_row (created_user sample_db eve))).
Proof.
  split; [reflexivity|].
  apply (add_user_then_get_user true sample_db eve eve_is_new). reflexivity.
Defined.

Lemma create_project_checks_owner_witness :
  (find_user sample_db (ProjectCreate.owner_id orphaning) = None
   /\ respond 201 (row (create_project true orphaning)) sample_db
      = ({| status_code := 404; content_ := Detail "User not found" |}, sample_db))
  /\ (find_user sample_db (ProjectCreate.owner_id handover_beyond) = None
      /\ respond 201 (row (create_project true handover_beyond)) sample_db
         = ({| status_code := 500; content_ := InternalServerError |}, sample_db))
  /\ (find_user sample_db (ProjectCreate.owner_id handover) = Some bob
      /\ fst (respond 201 (row (create_project true handover)) sample_db)
         = {| status_code := 201;
              content_ := Row (Project (ProjectDB.of_row
                                 (created_project sample_db (u "Engine 2") None 2))) |}).
Proof.
  split.
  - split; [reflexivity|].
    destruct (create_project_checks_owner true sample_db orphaning) as [H _].
    apply (H eq_refl).
  - split; [split; [reflexivity|]|].
    { destruct (create_project_checks_owner true sample_db handover_beyond) as [H _].
      apply (H eq_refl). }
    split; [reflexivity|].
    destruct (create_project_checks_owner true sample_db handover) as [_ H].
    rewrite (H bob eq_refl). reflexivity.
Defined.

Lemma create_user_project_checks_user_witness :
  (find_user sample_db 9 = None
   /\ respond 201 (row (create_user_project true 9 compiler)) sample_db
      = ({| status_code := 404; content_ := Detail "User not found" |}, sample_db))
  /\ (find_user sample_db 2 = Some bob
      /\ fst (respond 201 (row (create_user_project true 2 compiler)) sample_db)
         = {| status_code := 201;
              content_ := Row (Project (ProjectDB.of_row
                                 (created_project sample_db (u "Compiler")
                                                  (Some (u "draft")) 2))) |}).
Proof.
  split.
  - split; [reflexivity|].
    destruct (create_user_project_checks_user true sample_db 9 compiler) as [H _].
    apply (H eq_refl).
  - split; [reflexivity|].
    destruct (create_user_project_checks_user true sample_db 2 compiler) as [_ H].
    rewrite (H bob eq_refl). reflexivity.
Defined.

Lemma missing_row_is_404_witness :
  find_user sample_db 9 = None
  /\ find_project sample_db 9 = None
  /\ find_user sample_db two_to_63 = None
  /\ respond 200 (row (get_user two_to_63)) sample_db
     = ({| status_code := 500; content_ := InternalServerError |}, sample_db)
  /\ respond 200 (row (get_user 9)) sample_db
     = ({| status_code := 404; content_ := Detail "User not found" |}, sample_db)
  /\ respond 200 (row (patch_project true 9 (description_only None))) sample_db
     = ({| status_code := 404; content_ := Detail "Project not found" |}, sample_db).
Proof.
  split; [reflexivity|]. split; [reflexivity|]. split; [reflexivity|].
  split; [destruct (missing_row_is_404 true sample_db two_to_63) as [Hu _];
          apply (Hu eq_refl)|].
  destruct (missing_row_is_404 true sample_db 9) as [Hu Hp].
  split.
  - apply (Hu eq_refl).
  - apply (Hp eq_refl).
Defined.

Lemma update_user_replaces_witness :
  find_user sample_db 1 = Some ada
  /\ int64 (UserCreate.age ada_older) = true
  /\ Users.email ada = UserCreate.email ada_older
  /\ Users.student_id ada = UserCreate.student_id ada_older
  /\ exists s',
      update_user true 1 ada_older (open_session sample_db)
      = (Ok (User (UserDB.of_row (replaced_user 1 ada_older))), s')
      /\ find_user (committed s') 1 = Some (replaced_user 1 ada_older)
      /\ projects (committed s') = projects sample_db
      /\ courses (committed s') = courses sample_db.
Proof.
  split; [reflexivity|]. split; [reflexivity|]. split; [reflexivity|].
  split; [reflexivity|].
  apply (update_user_replaces true sample_db 1 ada ada_older);
    [reflexivity|reflexivity|left; reflexivity|left; reflexivity].
Defined.

Lemma update_user_conflict_witness :
  find_user sample_db 1 = Some ada
  /\ int64 (UserCreate.age ada_as_bob) = true
  /\ In bob (users sample_db)
  /\ Users.email bob = UserCreate.email ada_as_bob
  /\ Users.email ada <> UserCreate.email ada_as_bob
  /\ respond 200 (row (update_user true 1 ada_as_bob)) sample_db
     = ({| status_code := 400;
           content_ := Detail "Email or Student ID already exists" |}, sample_db).
Proof.
  split; [reflexivity|]. split; [reflexivity|].
  split; [right; left; reflexivity|]. split; [reflexivity|].
  split; [discriminate|].
  apply (update_user_conflict true sample_db 1 ada bob ada_as_bob);
    [reflexivity|reflexivity|right; left; reflexivity
    |left; split; [reflexivity|discriminate]].
Defined.

Lemma patch_nothing_is_noop_witness :
  find_user sample_db 1 = Some ada
  /\ find_project sample_db 1 = Some engine
  /\ respond 200 (row (patch_user true 1 nothing_set_user)) sample_db
     = ({| status_code := 200; content_ := Row (User (UserDB.of_row ada)) |}, sample_db)
  /\ respond 200 (row (patch_project true 1 nothing_set_project)) sample_db
     = ({| status_code := 200; content_ := Row (Project (ProjectDB.of_row engine)) |},
        sample_db).
Proof.
  split; [reflexivity|]. split; [reflexivity|].
  destruct (patch_nothing_is_noop true sample_db 1) as [Hu Hp].
  split; [apply Hu|apply Hp]; reflexivity.
Defined.

Lemma update_project_missing_owner_witness :
  find_project sample_db 1 = Some engine
  /\ int64 (ProjectCreate.owner_id orphaning) = true
  /\ find_user sample_db (ProjectCreate.owner_id orphaning) = None
  /\ Projects.owner_id engine <> ProjectCreate.owner_id orphaning
  /\ respond 200 (row (update_project true 1 orphaning)) sample_db
     = ({| status_code := 400; content_ := Detail "Project already exists" |}, sample_db).
Proof.
  split; [reflexivity|]. split; [reflexivity|]. split; [reflexivity|].
  split; [discriminate|].
  apply (update_project_missing_owner sample_db 1 engine orphaning);
    [reflexivity|reflexivity|reflexivity|discriminate].
Defined.

Lemma patch_user_null_column_witness :
  find_user sample_db 1 = Some ada
  /\ decimal (u "1") = Some 1
  /\ nulls_a_column name_null
  /\ respond 200 (row (patch_user true 1 name_null)) sample_db
     = ({| status_code := 400;
           content_ := Detail "Email or Student ID already exists" |}, sample_db)
  /\ handle ascii_only decimal any_address true
            (PATCH_user (u "1") {["name" := PyNone]}) sample_db
     = ({| status_code := 400;
           content_ := Detail "Email or Student ID already exists" |}, sample_db).
Proof.
  split; [reflexivity|]. split; [reflexivity|]. split; [right; left; reflexivity|].
  destruct (patch_user_null_column ascii_only decimal any_address true
              sample_db 1 ada 49%N [] eq_refl eq_refl) as [Hh Hr].
  split; [apply Hh; right; left; reflexivity|exact Hr].
Defined.

Lemma patch_project_null_name_witness :
  find_project sample_db 1 = Some engine
  /\ respond 200 (row (patch_project true 1
                         {| ProjectUpdate.name := Set_ None;
                            ProjectUpdate.description := Unset |})) sample_db
     = ({| status_code := 400; content_ := Detail "Project already exists" |}, sample_db).
Proof.
  split; [reflexivity|].
  apply (patch_project_null_name true sample_db 1 engine Unset). reflexivity.
Defined.

Lemma get_project_with_owner_loads_owner_witness :
  List.NoDup (map Projects.id (projects sample_db))
  /\ int64 1 = true /\ int64 9 = true /\ int64 two_to_63 = false
  /\ get_project_with_owner two_to_63 (open_session sample_db)
     = (Raise OverflowError, open_session sample_db)
  /\ find_project sample_db 1 = Some engine
  /\ get_project_with_owner 1 (open_session sample_db)
     = (Ok (Project (ProjectDB.of_row engine), Some (User (UserDB.of_row ada))),
        open_session sample_db)
  /\ find_project sample_db 9 = None
  /\ get_project_with_owner 9 (open_session sample_db)
     = (Raise (HTTPException 404 "Project not found"), open_session sample_db).
Proof.
  assert (Hnd : List.NoDup (map Projects.id (projects sample_db)))
    by (repeat constructor; cbn; tauto).
  split; [exact Hnd|]. do 3 (split; [reflexivity|]).
  split; [|split; [reflexivity|split; [|split; [reflexivity|]]]].
  - destruct (get_project_with_owner_loads_owner sample_db two_to_63) as (H & _ & _).
    apply (H eq_refl).
  - destruct (get_project_with_owner_loads_owner sample_db 1) as (_ & _ & H).
    apply (H engine eq_refl Hnd eq_refl).
  - destruct (get_project_with_owner_loads_owner sample_db 9) as (_ & H & _).
    apply (H eq_refl eq_refl).
Defined.

Lemma list_courses_page_length_witness :
  0 <= 5 /\ 0 <= 1 /\ int64 5 = true /\ int64 1 = true
  /\ exists page,
      list_courses 5 1 (open_session sample_db) = (Ok page, open_session sample_db)
      /\ length page = Nat.min (Z.to_nat 5) (length (courses sample_db) - Z.to_nat 1).
Proof.
  split; [lia|]. split; [lia|]. split; [reflexivity|]. split; [reflexivity|].
  apply (list_courses_page_length sample_db 5 1); [lia|lia|reflexivity|reflexivity].
Defined.

Lemma deleted_user_is_gone_witness :
  find_user sample_db 1 = Some ada
  /\ exists db',
      respond 204 (delete_user true 1;; mret Empty) sample_db
      = ({| status_code := 204; content_ := Empty |}, db')
      /\ respond 200 (row (get_user 1)) db'
         = ({| status_code := 404; content_ := Detail "User not found" |}, db')
      /\ respond 200 (rows (get_user_projects 1)) db'
         = ({| status_code := 200; content_ := Rows [] |}, db')
      /\ respond 204 (delete_user true 1;; mret Empty) db'
         = ({| status_code := 404; content_ := Detail "User not found" |}, db').
Proof.
  split; [reflexivity|]. apply (deleted_user_is_gone true sample_db 1 ada). reflexivity.
Defined.

Lemma integer_beyond_64_bits_is_500_witness :
  int64 two_to_63 = false
  /\ respond 201 (row (add_user true {| UserCreate.student_id := u "S1234567";
                                        UserCreate.name := u "Eve";
                                        UserCreate.email := u "eve@example.com";
                                        UserCreate.age := two_to_63 |})) sample_db
     = ({| status_code := 500; content_ := InternalServerError |}, sample_db)
  /\ respond 200 (rows (list_courses 10 two_to_63)) sample_db
     = ({| status_code := 500; content_ := InternalServerError |}, sample_db)
  /\ respond 200 (rows (get_user_projects two_to_63)) sample_db
     = ({| status_code := 500; content_ := InternalServerError |}, sample_db).
Proof.
  split; [reflexivity|].
  destruct (integer_beyond_64_bits_is_500 true sample_db two_to_63 eq_refl)
    as (Hadd & Hlist & Hfetch & _).
  split; [apply Hadd; reflexivity|]. split; [apply (Hlist 10)|exact Hfetch].
Defined.

Lemma every_request_keeps_constraints_witness :
  constraints_hold true sample_db
  /\ constraints_hold true
       (snd (handle ascii_only decimal any_address true
                    (POST_users (body_of_age 19)) sample_db)).
Proof.
  split; [exact sample_db_constraints|].
  apply (every_request_keeps_constraints ascii_only decimal any_address true
           (POST_users (body_of_age 19)) sample_db sample_db_constraints).
Defined.

Lemma GET_never_writes_witness :
  request_method (GET_user_projects (u "1")) = GET
  /\ snd (handle ascii_only decimal any_address true (GET_user_projects (u "1")) sample_db)
     = sample_db.
Proof.
  split; [reflexivity|].
  apply (GET_never_writes ascii_only decimal any_address true). reflexivity.
Defined.

